(** * Drift monitoring and retraining workflow of the election MLOps repository

    A shallow embedding of

    - [src/monitoring/drift_monitoring.py]  (class [DriftMonitor]),
    - [src/monitoring/detect_drift.py]      (class [DriftDetector]),
    - [airflow/dags/retrain_on_drift.py]    (the DAG [election_retrain_on_drift]),
    - [src/utils/config.py]                 (the constant [Config.DRIFT_THRESHOLD]),

    followed by the properties of the drift report, of the alert history and
    of the workflow's branching that are proved about them.

    Python floats are IEEE 754 binary64 numbers: they are modelled by Rocq's
    primitive floats, so that [n / m] and [x > 0.3] round exactly as the
    interpreter does.  Dictionaries are finite maps keyed by strings, raised
    exceptions are the [Raise] results of an error monad, and the libraries
    the code calls (scipy's [ks_2samp], Evidently, pandas' [read_csv], the
    clock) are fields of an environment record the functions are run in. *)

From Stdlib Require Import Floats.PrimFloat Floats.SpecFloat Floats.FloatOps.
From Stdlib Require Import Numbers.Cyclic.Int63.Uint63.
From Stdlib Require Import ZArith Ascii String DecimalString.
From stdpp Require Import gmap strings list fin_maps.

Set Warnings "-inexact-float,-clear-no-such-hyp".
Local Open Scope string_scope.

(** ** Python values, exceptions and truthiness *)

Module Py.

(** A raised exception: the name of its class and its message. *)
Record exn := Exn { exn_class : string; exn_msg : string }.

(** The outcome of a call: it returns a value or raises. *)
Inductive result (A : Type) : Type :=
| Ok (a : A)
| Raise (e : exn).
Arguments Ok {A} a.
Arguments Raise {A} e.

#[global] Instance result_ret : MRet result := fun A a => Ok a.
#[global] Instance result_bind : MBind result := fun A B f m =>
  match m with
  | Ok a => f a
  | Raise e => Raise e
  end.

Definition returns {A} (r : result A) : bool :=
  match r with Ok _ => true | Raise _ => false end.

(** One entry of [drift_scores]: the dictionary
    [{"statistic": float(statistic), "p_value": float(p_value)}]. *)
Record score := Score { statistic : float; p_value : float }.

(** The values stored in the report dictionaries. *)
Inductive value :=
| VNone
| VBool (b : bool)
| VInt (z : Z)
| VFloat (f : float)
| VStr (s : string)
| VList (l : list string)
| VScores (m : gmap string score).

(** [float(n)] for an integer; exact below 2^53, which every [len] is. *)
Definition float_of_Z (z : Z) : float :=
  if (z <? 0)%Z then PrimFloat.opp (PrimFloat.of_uint63 (Uint63.of_Z (- z)))
  else PrimFloat.of_uint63 (Uint63.of_Z z).

Definition float_of_nat (n : nat) : float := float_of_Z (Z.of_nat n).

(** [bool(x)] for a float: [x != 0.0]; both zeros are falsy, NaN is truthy. *)
Definition float_truthy (x : float) : bool := negb (PrimFloat.eqb x 0%float).

(** [bool(v)]. *)
Definition truthy (v : value) : bool :=
  match v with
  | VNone => false
  | VBool b => b
  | VInt z => negb (z =? 0)%Z
  | VFloat f => float_truthy f
  | VStr s => negb (String.eqb s "")
  | VList l => match l with [] => false | _ => true end
  | VScores m => negb (bool_decide (m = ∅))
  end.

(** [t < z] for a float and an integer.  The interpreter compares the two
    numbers exactly, without rounding the integer to a float: a finite
    float is [±m * 2^e], NaN is below nothing and minus infinity is below
    every integer. *)
Definition lt_float_Z (t : float) (z : Z) : bool :=
  match Prim2SF t with
  | S754_nan => false
  | S754_infinity negative => negative
  | S754_zero _ => (0 <? z)%Z
  | S754_finite negative m e =>
      let mz := if negative then Z.neg m else Z.pos m in
      if (0 <=? e)%Z then (mz * 2 ^ e <? z)%Z else (mz <? z * 2 ^ (- e))%Z
  end.

(** [v > t] for a float [t]: defined on numbers ([bool] is a subclass of
    [int]), a [TypeError] otherwise. *)
Definition gt_float (v : value) (t : float) : result bool :=
  match v with
  | VInt z => Ok (lt_float_Z t z)
  | VFloat f => Ok (PrimFloat.ltb t f)
  | VBool b => Ok (lt_float_Z t (if b then 1 else 0))
  | _ => Raise (Exn "TypeError" "'>' not supported")
  end.

(** [d[k]]: a [KeyError] when the key is absent. *)
Definition getitem (d : gmap string value) (k : string) : result value :=
  match d !! k with
  | Some v => Ok v
  | None => Raise (Exn "KeyError" k)
  end.

(** [str(n)] for an integer. *)
Definition str_of_Z (z : Z) : string := NilZero.string_of_int (Z.to_int z).

(** [s.lower()] on ASCII letters. *)
Definition lower_ascii (c : ascii) : ascii :=
  let n := Ascii.nat_of_ascii c in
  if (65 <=? n)%nat && (n <=? 90)%nat then Ascii.ascii_of_nat (n + 32) else c.

Fixpoint lower (s : string) : string :=
  match s with
  | EmptyString => EmptyString
  | String c s' => String (lower_ascii c) (lower s')
  end.

(** [sub in s]. *)
Fixpoint contains (sub s : string) : bool :=
  String.prefix sub s ||
  match s with
  | EmptyString => false
  | String _ s' => contains sub s'
  end.

End Py.
Import Py.

(** ** Tables: pandas data frames restricted to what the monitor uses *)

Module Frame.

(** A table maps a column name to its observations; a missing observation
    is a NaN. *)
Abbreviation DataFrame := (gmap string (list float)).

(** [col in df.columns]. *)
Definition has_column (df : DataFrame) (col : string) : bool :=
  bool_decide (is_Some (df !! col)).

(** [series.dropna()]. *)
Definition dropna (xs : list float) : list float :=
  List.filter (fun x => negb (PrimFloat.is_nan x)) xs.

(** [df[cols]] for a list of labels: pandas raises [KeyError] as soon as one
    label is not a column, and otherwise keeps the listed columns. *)
Definition select (df : DataFrame) (cols : list string) : result DataFrame :=
  if forallb (has_column df) cols
  then Ok (filter (fun kv => kv.1 ∈ cols) df)
  else Raise (Exn "KeyError" "not in index").

End Frame.
Import Frame.

(** ** The libraries and the configuration the monitor runs against *)

(** One element of Evidently's [report.as_dict()["metrics"]]: the monitor reads
    its ["metric"] entry and the ["drift_detected"] entry of its ["result"]. *)
Record metric_entry := MetricEntry {
  me_metric : option string;
  me_result : option (gmap string value)
}.

Record Env := {
  (** the value of the environment variable DRIFT_THRESHOLD, when it is set *)
  getenv_DRIFT_THRESHOLD : option float;
  (** whether [from evidently... import ...] succeeded when the module was loaded *)
  EVIDENTLY_AVAILABLE : bool;
  (** [Report(metrics=[DataDriftPreset(), DataQualityPreset()])], [run] on the
      two tables and [as_dict().get('metrics', [])] *)
  evidently_metrics : DataFrame → DataFrame → result (list metric_entry);
  (** [scipy.stats.ks_2samp]: the statistic and the p-value, or an exception *)
  ks_2samp : list float → list float → result (float * float)
}.

Module Config.

(** [DRIFT_THRESHOLD = float(os.getenv("DRIFT_THRESHOLD", "0.1"))] *)
Definition DRIFT_THRESHOLD (env : Env) : float :=
  default 0.1%float (getenv_DRIFT_THRESHOLD env).

End Config.

(** ** [DriftMonitor] *)

Abbreviation report := (gmap string value).

Record DriftMonitor := {
  drift_threshold : float;
  drift_detected : bool;
  drift_report : report
}.

Module Monitor.
Section Monitor.

Variable env : Env.

(** [DriftMonitor.__init__]:
    [self.drift_threshold = drift_threshold or Config.DRIFT_THRESHOLD]. *)
Definition __init__ (threshold : option float) : DriftMonitor :=
  {| drift_threshold :=
       match threshold with
       | Some t => if float_truthy t then t else Config.DRIFT_THRESHOLD env
       | None => Config.DRIFT_THRESHOLD env
       end;
     drift_detected := false;
     drift_report := ∅ |}.

(** The body of the loop of [_simple_drift_detection], run over the columns
    that are left; [drifted] and [scores] are [drifted_features] and
    [drift_scores].  An exception of [ks_2samp] leaves the loop. *)
Fixpoint ks_loop (reference_data current_data : DataFrame) (cols : list string)
    (drifted : list string) (scores : gmap string score)
    : result (list string * gmap string score) :=
  match cols with
  | [] => Ok (drifted, scores)
  | col :: rest =>
      match reference_data !! col, current_data !! col with
      | Some r, Some c =>
          match ks_2samp env (dropna r) (dropna c) with
          | Ok (stat, p) =>
              ks_loop reference_data current_data rest
                (if PrimFloat.ltb p 0.05%float then (drifted ++ [col])%list else drifted)
                (<[col := Score stat p]> scores)
          | Raise e => Raise e
          end
      | _, _ => ks_loop reference_data current_data rest drifted scores
      end
  end.

(** [n / len(feature_columns) if feature_columns else 0] *)
Definition share_of (n : nat) (feature_columns : list string) : value :=
  match feature_columns with
  | [] => VInt 0
  | _ => VFloat (PrimFloat.div (float_of_nat n) (float_of_nat (length feature_columns)))
  end.

(** [drift_share > self.drift_threshold], for the shares [share_of] builds. *)
Definition exceeds (share : value) (threshold : float) : bool :=
  match gt_float share threshold with
  | Ok b => b
  | Raise _ => false
  end.

(** [DriftMonitor._simple_drift_detection]; [now] is
    [datetime.now(timezone.utc).isoformat()].  The result is the updated
    monitor and the returned dictionary, which is also [self.drift_report]. *)
Definition _simple_drift_detection (self : DriftMonitor)
    (reference_data current_data : DataFrame) (feature_columns : list string)
    (now : string) : result (DriftMonitor * report) :=
  '(drifted_features, drift_scores) ←
     ks_loop reference_data current_data feature_columns [] ∅;
  let drift_share := share_of (length drifted_features) feature_columns in
  let detected := exceeds drift_share (drift_threshold self) in
  let rep : report :=
    <["method" := VStr "ks_test"]>
    (<["threshold" := VFloat (drift_threshold self)]>
    (<["drift_scores" := VScores drift_scores]>
    (<["drifted_features" := VList drifted_features]>
    (<["n_features" := VInt (Z.of_nat (length feature_columns))]>
    (<["n_drifted_features" := VInt (Z.of_nat (length drifted_features))]>
    (<["drift_share" := drift_share]>
    (<["drift_detected" := VBool detected]>
    (<["timestamp" := VStr now]> ∅)))))))) in
  mret ({| drift_threshold := drift_threshold self;
           drift_detected := detected;
           drift_report := rep |}, rep).

(** ['drift' in str(m.get('metric', '')).lower()] *)
Definition is_drift_metric (m : metric_entry) : bool :=
  contains "drift" (lower (default "" (me_metric m))).

(** [m.get('result', {}).get('drift_detected', False)], as a condition *)
Definition metric_drifted (m : metric_entry) : bool :=
  truthy (default (VBool false) (default ∅ (me_result m) !! "drift_detected")).

(** The [try] block of [detect_data_drift]. *)
Definition evidently_drift_detection (self : DriftMonitor)
    (reference_data current_data : DataFrame) (feature_columns : list string)
    (now : string) : result (DriftMonitor * report) :=
  ref_sel ← select reference_data feature_columns;
  cur_sel ← select current_data feature_columns;
  metrics ← evidently_metrics env ref_sel cur_sel;
  let drift_metrics := List.filter is_drift_metric metrics in
  let n_drifted := length (List.filter metric_drifted drift_metrics) in
  let drift_share := share_of n_drifted feature_columns in
  let detected := exceeds drift_share (drift_threshold self) in
  let rep : report :=
    <["threshold" := VFloat (drift_threshold self)]>
    (<["n_features" := VInt (Z.of_nat (length feature_columns))]>
    (<["n_drifted_features" := VInt (Z.of_nat n_drifted)]>
    (<["drift_share" := drift_share]>
    (<["drift_detected" := VBool detected]>
    (<["timestamp" := VStr now]> ∅))))) in
  mret ({| drift_threshold := drift_threshold self;
           drift_detected := detected;
           drift_report := rep |}, rep).

(** [DriftMonitor.detect_data_drift]: the simple detection when Evidently is
    not installed, and in the [except Exception] handler of the [try] block. *)
Definition detect_data_drift (self : DriftMonitor)
    (reference_data current_data : DataFrame) (feature_columns : list string)
    (now : string) : result (DriftMonitor * report) :=
  if negb (EVIDENTLY_AVAILABLE env) then
    _simple_drift_detection self reference_data current_data feature_columns now
  else
    match evidently_drift_detection self reference_data current_data feature_columns now with
    | Ok r => Ok r
    | Raise _ =>
        _simple_drift_detection self reference_data current_data feature_columns now
    end.

(** [DriftMonitor.should_retrain] *)
Definition should_retrain (self : DriftMonitor) : bool := drift_detected self.

End Monitor.
End Monitor.

(** ** [DriftDetector] *)

(** The dictionary [create_alert] builds. *)
Record Alert := {
  alert_timestamp : string;
  severity : string;
  alert_type : string;
  message : string;
  details : report;
  action : string
}.

(** List objects live in a store: [self.alerts] and the ["alerts"] entry of a
    result of [check_drift] are references to one list, so what a caller
    reads through the entry is the content of the store at that time. *)
Abbreviation loc := positive.
Abbreviation store := (gmap loc (list Alert)).

Record DriftDetector := {
  monitor : DriftMonitor;
  alerts : loc
}.

(** The dictionary [check_drift] returns. *)
Record CheckResult := {
  res_drift_report : report;
  res_alerts : loc;
  res_action_required : value
}.

(** The files [pd.read_csv] is given: a table, or the exception it raises. *)
Abbreviation files := (string → result DataFrame).

Module Detector.
Section Detector.

Variable env : Env.
Variable read_csv : files.

(** [DriftDetector.__init__]: a monitor with the default threshold and a new,
    empty list. *)
Definition __init__ (σ : store) : DriftDetector * store :=
  let l := fresh (dom σ) in
  ({| monitor := Monitor.__init__ env None; alerts := l |}, <[l := []]> σ).

(** [f"{x}"] for the values the message of an alert prints: the two
    counts of a report, integers in the reports of both strategies.  The
    text of a float, a list or a dictionary is not modelled and stands as
    ["?"]. *)
Definition format (v : value) : string :=
  match v with
  | VInt z => str_of_Z z
  | VStr s => s
  | VBool true => "True"
  | VBool false => "False"
  | VNone => "None"
  | _ => "?"
  end.

(** [DriftDetector.create_alert]; [utcnow] is [datetime.utcnow().isoformat()]. *)
Definition create_alert (drift_report : report) (utcnow : string) : result Alert :=
  share ← getitem drift_report "drift_share";
  high ← gt_float share 0.3%float;
  n_drifted ← getitem drift_report "n_drifted_features";
  n_features ← getitem drift_report "n_features";
  mret {| alert_timestamp := utcnow;
          severity := if (high : bool) then "high" else "medium";
          alert_type := "data_drift";
          message := "Data drift detected! " ++ format n_drifted ++ " out of "
                     ++ format n_features ++ " features have drifted.";
          details := drift_report;
          action := "Model retraining recommended" |}.

(** [self.alerts.append(alert)] *)
Definition append_alert (self : DriftDetector) (alert : Alert) (σ : store) : store :=
  <[alerts self := (default [] (σ !! alerts self) ++ [alert])%list]> σ.

(** [DriftDetector.check_drift].  The state a call leaves behind (the detector
    and the store) is returned next to its outcome, also when it raises. *)
Definition check_drift (self : DriftDetector) (σ : store)
    (reference_data_path current_data_path : string)
    (feature_columns : list string) (now utcnow : string)
    : DriftDetector * store * result CheckResult :=
  match read_csv reference_data_path with
  | Raise e => (self, σ, Raise e)
  | Ok reference_data =>
  match read_csv current_data_path with
  | Raise e => (self, σ, Raise e)
  | Ok current_data =>
  match Monitor.detect_data_drift env (monitor self) reference_data current_data
          feature_columns now with
  | Raise e => (self, σ, Raise e)
  | Ok (monitor', drift_report) =>
      let self' := {| monitor := monitor'; alerts := alerts self |} in
      match getitem drift_report "drift_detected" with
      | Raise e => (self', σ, Raise e)
      | Ok detected =>
          let finish σ' :=
            (self', σ',
             Ok {| res_drift_report := drift_report;
                   res_alerts := alerts self';
                   res_action_required := detected |}) in
          if truthy detected then
            match create_alert drift_report utcnow with
            | Raise e => (self', σ, Raise e)
            | Ok alert => finish (append_alert self' alert σ)
            end
          else finish σ
      end
  end end end.

(** One call of a sequence: its arguments and the two clock readings. *)
Record Call := {
  call_reference : string;
  call_current : string;
  call_features : list string;
  call_now : string;
  call_utcnow : string
}.

(** A sequence of calls on one instance; the result lists, for each call, its
    outcome and the store as it is when the call ends. *)
Fixpoint check_drift_calls (self : DriftDetector) (σ : store) (calls : list Call)
    : DriftDetector * store * list (result CheckResult * store) :=
  match calls with
  | [] => (self, σ, [])
  | c :: rest =>
      let '(self1, σ1, r) :=
        check_drift self σ (call_reference c) (call_current c) (call_features c)
          (call_now c) (call_utcnow c) in
      let '(self2, σ2, rs) := check_drift_calls self1 σ1 rest in
      (self2, σ2, (r, σ1) :: rs)
  end.

End Detector.
End Detector.

(** ** The DAG [election_retrain_on_drift] *)

Module Dag.

(** The tasks, under the names of the Python variables that hold them. *)
Inductive task :=
| task_collect | task_drift | task_branch
| task_retrain | task_evaluate | task_deploy | task_alert
| task_skip | task_end.

(** The [task_id] each operator is created with. *)
Definition task_id (t : task) : string :=
  match t with
  | task_collect => "collect_recent_data"
  | task_drift => "detect_drift"
  | task_branch => "check_drift_decision"
  | task_retrain => "trigger_retrain"
  | task_evaluate => "evaluate_new_model"
  | task_deploy => "deploy_to_staging"
  | task_alert => "send_drift_alert"
  | task_skip => "skip_retrain"
  | task_end => "end"
  end.

Definition task_eqb (a b : task) : bool := String.eqb (task_id a) (task_id b).

(** The tasks in the order the file creates them, which respects [edges]. *)
Definition tasks : list task :=
  [task_collect; task_drift; task_branch; task_retrain; task_evaluate;
   task_deploy; task_alert; task_skip; task_end].

(** The dependencies, [a >> b] as [(a, b)]:
<<
task_collect >> task_drift >> task_branch
task_branch >> task_retrain >> task_evaluate >> task_deploy >> task_alert >> task_end
task_branch >> task_skip >> task_end
>> *)
Definition edges : list (task * task) :=
  [(task_collect, task_drift); (task_drift, task_branch);
   (task_branch, task_retrain); (task_retrain, task_evaluate);
   (task_evaluate, task_deploy); (task_deploy, task_alert); (task_alert, task_end);
   (task_branch, task_skip); (task_skip, task_end)].

Definition upstream (t : task) : list task :=
  map fst (List.filter (fun e => task_eqb (snd e) t) edges).

Definition downstream (t : task) : list task :=
  map snd (List.filter (fun e => task_eqb (fst e) t) edges).

(** Airflow's trigger rules, as far as the DAG uses them: the default, and
    the one [task_end] is given. *)
Inductive trigger_rule := all_success | none_failed_min_one_success.

Definition trigger_rule_of (t : task) : trigger_rule :=
  match t with
  | task_end => none_failed_min_one_success
  | _ => all_success
  end.

(** [default_args['retries']] *)
Definition retries : nat := 1.

(** The states a task instance ends in. *)
Inductive task_state := success | failed | upstream_failed | skipped.

Definition is_failed (s : task_state) : bool :=
  match s with failed | upstream_failed => true | _ => false end.
Definition is_success (s : task_state) : bool :=
  match s with success => true | _ => false end.
Definition is_skipped (s : task_state) : bool :=
  match s with skipped => true | _ => false end.

(** What the scheduler does with a task whose upstream tasks are all done. *)
Inductive readiness := Run | Skip | UpstreamFailed.

(** Airflow's evaluation of a trigger rule on the states of the upstream
    tasks.  [all_success]: run when every upstream task succeeded; a failed
    one makes the task [upstream_failed], a skipped one makes it [skipped].
    [none_failed_min_one_success]: run when no upstream task failed (or is
    [upstream_failed]) and at least one succeeded; skipped ones do not
    count against it. *)
Definition evaluate_rule (rule : trigger_rule) (ups : list task_state) : readiness :=
  if existsb is_failed ups then UpstreamFailed
  else match rule with
       | all_success => if existsb is_skipped ups then Skip else Run
       | none_failed_min_one_success =>
           if existsb is_success ups then Run
           else match ups with [] => Run | _ => Skip end
       end.

(** What a run leaves in its log: the tries of the callables and the calls
    they make out of the DAG file. *)
Inductive event :=
| Started (t : task) (try_number : nat)
| Called (function : string).

(** A computation that logs events and returns or raises. *)
Definition traced (A : Type) : Type := list event * result A.

#[global] Instance traced_ret : MRet traced := fun A a => ([], Ok a).
#[global] Instance traced_bind : MBind traced := fun A B f m =>
  match m with
  | (es, Ok a) => let '(es', r) := f a in ((es ++ es')%list, r)
  | (es, Raise e) => (es, Raise e)
  end.

Definition emit (e : event) : traced unit := ([e], Ok tt).
Definition lift {A} (r : result A) : traced A := ([], r).

(** XCom: the values pushed by the task instances of the run, by task id
    and key. *)
Abbreviation xcoms := (gmap (string * string) value).

(** [ti.xcom_pull(task_ids=t, key=k)]: [None] when nothing was pushed. *)
Definition xcom_pull (x : xcoms) (t k : string) : value :=
  default VNone (x !! (t, k)).

(** What a try of a task finds outside the DAG file. *)
Record World := {
  w_env : Env;
  w_read_csv : files;
  (** [generate_synthetic_election_data] and [save_dataset]: [str(output_path)] *)
  collect : result string;
  (** [reference_path.exists()] *)
  reference_exists : bool;
  (** [load_scaler], [preprocess], [engineer_features] and
      [get_all_feature_names] on the recent data *)
  engineer : DataFrame → result (DataFrame * list string);
  (** [monitor.save_drift_report(report_path)] *)
  save_drift_report : report → result unit;
  (** [airflow.api.common.trigger_dag.trigger_dag] *)
  trigger_dag : result unit;
  (** [src.train.evaluate.main] *)
  evaluate_main : result unit;
  (** [staging_dir.mkdir] and [shutil.copy(source_model, staging_model)] *)
  copy_model : result unit;
  (** [datetime.now(timezone.utc).isoformat()] *)
  w_now : string
}.

(** A callable returns the values it pushed to XCom and its return value. *)
Abbreviation callable := (World → xcoms → traced (list (string * value) * value)).

(** [Config.DATA_DIR / "features" / "train_features.csv"] *)
Definition reference_path : string := "data/features/train_features.csv".

Definition collect_recent_data : callable := fun w _ =>
  path ← lift (collect w);
  mret ([], VStr path).

(** [pd.read_csv(p)] for a pulled value. *)
Definition read_csv_value (w : World) (p : value) : result DataFrame :=
  match p with
  | VStr path => w_read_csv w path
  | _ => Raise (Exn "ValueError" "Invalid file path or buffer object type")
  end.

Definition detect_drift : callable := fun w x =>
  let recent_data_path := xcom_pull x "collect_recent_data" "return_value" in
  if negb (reference_exists w) then
    (* print("Reference data not found. Skipping drift detection.") *)
    mret ([], VBool false)
  else
    reference_data ← lift (w_read_csv w reference_path);
    recent_data ← lift (read_csv_value w recent_data_path);
    '(recent_data_features, feature_names) ← lift (engineer w recent_data);
    let monitor := Monitor.__init__ (w_env w) None in
    _ ← emit (Called "detect_data_drift");
    '(monitor', drift_report) ←
       lift (Monitor.detect_data_drift (w_env w) monitor reference_data
               recent_data_features feature_names (w_now w));
    _ ← lift (save_drift_report w drift_report);
    drift_detected ← lift (getitem drift_report "drift_detected");
    drift_share ← lift (getitem drift_report "drift_share");
    mret ([("drift_detected", drift_detected); ("drift_share", drift_share)],
          drift_detected).

Definition check_drift_decision : callable := fun _ x =>
  let drift_detected := xcom_pull x "detect_drift" "drift_detected" in
  if truthy drift_detected then mret ([], VStr "trigger_retrain")
  else mret ([], VStr "skip_retrain").

(** The [except Exception] handler prints and the callable returns. *)
Definition trigger_retrain : callable := fun w _ =>
  _ ← emit (Called "trigger_dag");
  match trigger_dag w with
  | Ok _ => mret ([], VNone)
  | Raise _ => mret ([], VNone)
  end.

Definition evaluate_new_model : callable := fun w _ =>
  _ ← emit (Called "evaluate_main");
  _ ← lift (evaluate_main w);
  mret ([], VNone).

Definition deploy_to_staging : callable := fun w _ =>
  _ ← emit (Called "shutil.copy");
  _ ← lift (copy_model w);
  mret ([], VNone).

(** [f"{drift_share:.2%}"] is defined on numbers only: a string has no format
    code [%] (a [ValueError]), and [None], lists and dictionaries take no
    format string at all (a [TypeError]). *)
Definition send_drift_alert : callable := fun _ x =>
  let drift_share := xcom_pull x "detect_drift" "drift_share" in
  match drift_share with
  | VInt _ | VFloat _ | VBool _ => _ ← emit (Called "print"); mret ([], VNone)
  | VStr _ =>
      lift (Raise (Exn "ValueError" "Unknown format code '%' for object of type 'str'"))
  | _ => lift (Raise (Exn "TypeError" "unsupported format string"))
  end.

Inductive operator :=
| PythonOperator (python_callable : callable)
| BranchPythonOperator (python_callable : callable)
| DummyOperator.

Definition operator_of (t : task) : operator :=
  match t with
  | task_collect => PythonOperator collect_recent_data
  | task_drift => PythonOperator detect_drift
  | task_branch => BranchPythonOperator check_drift_decision
  | task_retrain => PythonOperator trigger_retrain
  | task_evaluate => PythonOperator evaluate_new_model
  | task_deploy => PythonOperator deploy_to_staging
  | task_alert => PythonOperator send_drift_alert
  | task_skip => DummyOperator
  | task_end => DummyOperator
  end.

(** *** The scheduler *)

(** The state of a DAG run: the task instances decided so far, the XCom
    table and the log. *)
Record dag_run := {
  states : list (task * task_state);
  xcom : xcoms;
  trace : list event
}.

Definition initial : dag_run := {| states := []; xcom := ∅; trace := [] |}.

Fixpoint lookup_state (l : list (task * task_state)) (t : task) : option task_state :=
  match l with
  | [] => None
  | (t', s) :: rest => if task_eqb t' t then Some s else lookup_state rest t
  end.

Definition state_of (r : dag_run) (t : task) : option task_state :=
  lookup_state (states r) t.

Definition set_state (t : task) (s : task_state) (r : dag_run) : dag_run :=
  {| states := (t, s) :: states r; xcom := xcom r; trace := trace r |}.

Definition log (es : list event) (r : dag_run) : dag_run :=
  {| states := states r; xcom := xcom r; trace := (trace r ++ es)%list |}.

(** The tries of a task: a try that raises is followed by another one as
    long as retries are left. *)
Fixpoint run_tries {A} (t : task) (f : nat → traced A) (try_number retries_left : nat)
    : traced A :=
  let '(es, r) := f try_number in
  match r, retries_left with
  | Raise _, S k =>
      let '(es', r') := run_tries t f (S try_number) k in
      ((Started t try_number :: es ++ es')%list, r')
  | _, _ => (Started t try_number :: es, r)
  end.

(** What a successful try leaves in XCom: its pushes, and its return value
    under ["return_value"] unless it is [None]. *)
Definition push_all (t : task) (pushes : list (string * value)) (ret : value)
    (x : xcoms) : xcoms :=
  let x' := fold_left (fun acc kv => <[(task_id t, kv.1) := kv.2]> acc) pushes x in
  match ret with
  | VNone => x'
  | _ => <[(task_id t, "return_value") := ret]> x'
  end.

(** [BranchPythonOperator]: the direct downstream tasks other than the one
    the callable named are skipped. *)
Definition skip_all_except (t : task) (branch : string) (r : dag_run) : dag_run :=
  fold_left
    (fun acc d => if String.eqb (task_id d) branch then acc else set_state d skipped acc)
    (downstream t) r.

Section Run.

(** The world each try of each task runs in. *)
Variable worlds : task → nat → World.

Definition run_callable (t : task) (f : callable) (r : dag_run)
    : traced (list (string * value) * value) :=
  run_tries t (fun n => f (worlds t n) (xcom r)) 0 retries.

Definition execute (t : task) (r : dag_run) : dag_run :=
  match operator_of t with
  | DummyOperator => set_state t success (log [Started t 0] r)
  | PythonOperator f =>
      let '(es, out) := run_callable t f r in
      match out with
      | Ok (pushes, ret) =>
          set_state t success
            {| states := states r;
               xcom := push_all t pushes ret (xcom r);
               trace := (trace r ++ es)%list |}
      | Raise _ => set_state t failed (log es r)
      end
  | BranchPythonOperator f =>
      let '(es, out) := run_callable t f r in
      match out with
      | Ok (pushes, VStr branch) =>
          if existsb (fun d => String.eqb (task_id d) branch) (downstream t) then
            skip_all_except t branch
              (set_state t success
                 {| states := states r;
                    xcom := push_all t pushes (VStr branch) (xcom r);
                    trace := (trace r ++ es)%list |})
          else set_state t failed (log es r)
      | _ => set_state t failed (log es r)
      end
  end.

(** One task instance: left alone when the branch operator skipped it,
    otherwise run, skipped or failed as its trigger rule says. *)
Definition step (r : dag_run) (t : task) : dag_run :=
  match state_of r t with
  | Some _ => r
  | None =>
      match mapM (state_of r) (upstream t) with
      | None => r
      | Some ups =>
          match evaluate_rule (trigger_rule_of t) ups with
          | Run => execute t r
          | Skip => set_state t skipped r
          | UpstreamFailed => set_state t upstream_failed r
          end
      end
  end.

(** A DAG run, from the schedule firing to every task being decided. *)
Definition run : dag_run := fold_left step tasks initial.

End Run.

(** The state of the DAG run: that of its only leaf, [task_end]. *)
Definition run_succeeded (r : dag_run) : bool :=
  match state_of r task_end with
  | Some success | Some skipped => true
  | _ => false
  end.

(** A task was executed when one of its tries is in the log. *)
Definition starts (es : list event) (t : task) : bool :=
  existsb (fun e => match e with Started t' _ => task_eqb t' t | _ => false end) es.

Definition executed (r : dag_run) (t : task) : bool := starts (trace r) t.

(** A function was called when the call is in the log. *)
Definition calls (es : list event) (function : string) : bool :=
  existsb (fun e => match e with Called f => String.eqb f function | _ => false end) es.

Definition called (r : dag_run) (function : string) : bool := calls (trace r) function.

(** A computation that logs no try of a task: the callables only log the
    calls they make. *)
Definition silent {A} (m : traced A) : Prop := ∀ t, starts m.1 t = false.

(** The first three tasks and the rest of the DAG. *)
Definition head_tasks : list task := [task_collect; task_drift; task_branch].
Definition tail_tasks : list task :=
  [task_retrain; task_evaluate; task_deploy; task_alert; task_skip; task_end].

(** The tasks of the retraining branch. *)
Definition retrain_branch : list task :=
  [task_retrain; task_evaluate; task_deploy; task_alert].

End Dag.

(** ** Concrete libraries, tables and worlds for the examples *)

Module Examples.

Definition same_sample (xs ys : list float) : bool :=
  Nat.eqb (length xs) (length ys)
  && forallb (fun p => PrimFloat.eqb p.1 p.2) (combine xs ys).

(** A stand-in for [ks_2samp] that only tells identical samples (statistic 0,
    p-value 1) from different ones (statistic 1, p-value 0); [on_empty] is
    what it does when a sample is empty.  On the tables below it flags the
    columns scipy flags: identical samples have p-value 1, and two samples
    of five observations with disjoint ranges have p-value 2/252. *)
Definition ks_stand_in (on_empty : result (float * float)) (xs ys : list float)
    : result (float * float) :=
  match xs, ys with
  | [], _ | _, [] => on_empty
  | _, _ => if same_sample xs ys then Ok (0%float, 1%float) else Ok (1%float, 0%float)
  end.

(** scipy up to 1.13 raises on an empty sample. *)
Definition empty_raises : result (float * float) :=
  Raise (Exn "ValueError" "Data passed to ks_2samp must not be empty").

(** Later versions warn and return NaN for both numbers. *)
Definition empty_nan : result (float * float) := Ok (PrimFloat.nan, PrimFloat.nan).

(** Evidently is not installed. *)
Definition env_fallback : Env :=
  {| getenv_DRIFT_THRESHOLD := None;
     EVIDENTLY_AVAILABLE := false;
     evidently_metrics := fun _ _ => Raise (Exn "NameError" "name 'Report' is not defined");
     ks_2samp := ks_stand_in empty_raises |}.

Definition env_fallback_nan : Env :=
  {| getenv_DRIFT_THRESHOLD := None;
     EVIDENTLY_AVAILABLE := false;
     evidently_metrics := fun _ _ => Raise (Exn "NameError" "name 'Report' is not defined");
     ks_2samp := ks_stand_in empty_nan |}.

(** Evidently is installed and reports one drift metric that detected drift. *)
Definition env_evidently : Env :=
  {| getenv_DRIFT_THRESHOLD := None;
     EVIDENTLY_AVAILABLE := true;
     evidently_metrics := fun _ _ =>
       Ok [MetricEntry (Some "DatasetDriftMetric") (Some {["drift_detected" := VBool true]});
           MetricEntry (Some "DatasetSummaryMetric") (Some ∅)];
     ks_2samp := ks_stand_in empty_raises |}.

(** Evidently is installed and its run raises. *)
Definition env_evidently_raises : Env :=
  {| getenv_DRIFT_THRESHOLD := None;
     EVIDENTLY_AVAILABLE := true;
     evidently_metrics := fun _ _ => Raise (Exn "ValueError" "column types");
     ks_2samp := ks_stand_in empty_raises |}.

Definition ref_abc : DataFrame :=
  <["a" := [0; 1; 2; 3; 4]%float]>
  (<["b" := [3; 4; 5; 6; 7]%float]>
  (<["c" := [6; 7; 8; 9; 10]%float]> ∅)).

(** Column [a] is shifted, [b] is unchanged, [c] is missing. *)
Definition cur_ab : DataFrame :=
  <["a" := [5; 6; 7; 8; 9]%float]> (<["b" := [3; 4; 5; 6; 7]%float]> ∅).

(** Column [a] holds no observation. *)
Definition cur_a_nan : DataFrame :=
  <["a" := [PrimFloat.nan; PrimFloat.nan]]> (<["b" := [3; 4; 5; 6; 7]%float]> ∅).

Definition abc : list string := ["a"; "b"; "c"].

Definition monitor0 (env : Env) : DriftMonitor := Monitor.__init__ env None.

(** The field [k] of the report a call returned. *)
Definition field (r : result (DriftMonitor * report)) (k : string) : option value :=
  match r with
  | Ok (_, rep) => rep !! k
  | Raise _ => None
  end.

Definition example_files : files := fun path =>
  if String.eqb path "ref.csv" then Ok ref_abc
  else if String.eqb path "cur.csv" then Ok cur_ab
  else if String.eqb path "same.csv" then Ok ref_abc
  else if String.eqb path Dag.reference_path then Ok ref_abc
  else Raise (Exn "FileNotFoundError" path).

(** Worlds for the DAG: the collected data are at ["recent.csv"]; every
    try of every task sees the same world. *)
Definition dag_files (recent : DataFrame) : files := fun path =>
  if String.eqb path Dag.reference_path then Ok ref_abc
  else if String.eqb path "recent.csv" then Ok recent
  else Raise (Exn "FileNotFoundError" path).

Definition world (reference : bool) (recent : DataFrame) (features : list string)
    : Dag.World :=
  {| Dag.w_env := env_fallback;
     Dag.w_read_csv := dag_files recent;
     Dag.collect := Ok "recent.csv";
     Dag.reference_exists := reference;
     Dag.engineer := fun df => Ok (df, features);
     Dag.save_drift_report := fun _ => Ok tt;
     Dag.trigger_dag := Ok tt;
     Dag.evaluate_main := Ok tt;
     Dag.copy_model := Ok tt;
     Dag.w_now := "2024-01-01T00:00:00+00:00" |}.

(** No reference table on disk. *)
Definition worlds_no_reference : Dag.task → nat → Dag.World :=
  fun _ _ => world false cur_ab ["a"; "b"].

(** The recent data are the reference data: no drift. *)
Definition worlds_no_drift : Dag.task → nat → Dag.World :=
  fun _ _ => world true ref_abc abc.

(** Column [a] of the recent data is shifted: drift. *)
Definition worlds_drift : Dag.task → nat → Dag.World :=
  fun _ _ => world true cur_ab ["a"; "b"].

(** A new detector in an empty store. *)
Definition detector0 : DriftDetector := (Detector.__init__ env_fallback ∅).1.
Definition store0 : store := (Detector.__init__ env_fallback ∅).2.

(** What [detect_data_drift] gives the new detector for the tables above. *)
Definition detected_abc : DriftMonitor * report :=
  match Monitor.detect_data_drift env_fallback (monitor detector0) ref_abc cur_ab abc "t" with
  | Ok r => r
  | Raise _ => (monitor detector0, ∅)
  end.

(** Three calls on one detector: drift, no drift, drift. *)
Definition three_calls : list Detector.Call :=
  [ {| Detector.call_reference := "ref.csv"; Detector.call_current := "cur.csv";
       Detector.call_features := abc; Detector.call_now := "t1";
       Detector.call_utcnow := "u1" |};
    {| Detector.call_reference := "ref.csv"; Detector.call_current := "same.csv";
       Detector.call_features := abc; Detector.call_now := "t2";
       Detector.call_utcnow := "u2" |};
    {| Detector.call_reference := "ref.csv"; Detector.call_current := "cur.csv";
       Detector.call_features := ["a"; "b"]; Detector.call_now := "t3";
       Detector.call_utcnow := "u3" |} ].

End Examples.

(** The names of [feature_columns] that are columns of both tables. *)
Definition present (reference_data current_data : DataFrame) (feature_columns : list string)
    : gset string :=
  list_to_set feature_columns ∩ dom reference_data ∩ dom current_data.

(** What the loop of the simple detection does with one name: nothing when a
    table lacks the column, the call of [ks_2samp] otherwise. *)
Definition comparison (env : Env) (reference_data current_data : DataFrame)
    (col : string) : option (result (float * float)) :=
  match reference_data !! col, current_data !! col with
  | Some r, Some c => Some (ks_2samp env (dropna r) (dropna c))
  | _, _ => None
  end.

(** Whether [ks_2samp] is called for the name and raises. *)
Definition comparison_raises (env : Env) (reference_data current_data : DataFrame)
    (col : string) : bool :=
  match comparison env reference_data current_data col with
  | Some (Raise _) => true
  | _ => false
  end.

(** The reports of the calls of a sequence that detected drift, in order. *)
Definition detected_report (o : result CheckResult * store) : option report :=
  match o.1 with
  | Ok res => if truthy (res_action_required res) then Some (res_drift_report res) else None
  | Raise _ => None
  end.

Definition detected_reports (outs : list (result CheckResult * store)) : list report :=
  omap detected_report outs.

(** The fields of the two kinds of report. *)
Definition evidently_fields : gset string :=
  {["timestamp"; "drift_detected"; "drift_share"; "n_drifted_features";
    "n_features"; "threshold"]}.

Definition simple_fields : gset string :=
  evidently_fields ∪ {["drifted_features"; "drift_scores"; "method"]}.

(** * Properties of the drift monitor *)

(** ** The loop of the simple detection *)

Lemma ks_loop_app env reference_data current_data cols1 cols2 drifted scores :
  Monitor.ks_loop env reference_data current_data (cols1 ++ cols2)%list drifted scores =
  match Monitor.ks_loop env reference_data current_data cols1 drifted scores with
  | Ok (d, s) => Monitor.ks_loop env reference_data current_data cols2 d s
  | Raise e => Raise e
  end.
Proof.
  revert drifted scores.
  induction cols1 as [|col cols1 IH]; intros drifted scores; simpl; [done|].
  destruct (reference_data !! col) as [r|]; [|apply IH].
  destruct (current_data !! col) as [c|]; [|apply IH].
  destruct (ks_2samp env (dropna r) (dropna c)) as [[stat p]|e]; [apply IH|done].
Qed.

(** An exception that leaves the loop was raised by [ks_2samp], on the
    observations of a listed column that both tables have. *)
Lemma ks_loop_raise env reference_data current_data cols drifted scores e :
  Monitor.ks_loop env reference_data current_data cols drifted scores = Raise e →
  ∃ col r c, col ∈ cols ∧ reference_data !! col = Some r ∧
    current_data !! col = Some c ∧ ks_2samp env (dropna r) (dropna c) = Raise e.
Proof.
  revert drifted scores.
  induction cols as [|col cols IH]; intros drifted scores; simpl; [done|].
  destruct (reference_data !! col) as [r|] eqn:Hr;
    [|intros (c' & ? & ? & ? & ?)%IH; exists c'; set_solver].
  destruct (current_data !! col) as [c|] eqn:Hc;
    [|intros (c' & ? & ? & ? & ?)%IH; exists c'; set_solver].
  destruct (ks_2samp env (dropna r) (dropna c)) as [[stat p]|e'] eqn:Hks.
  - intros (c' & ? & ? & ? & ?)%IH. exists c'. set_solver.
  - intros [= ->]. exists col, r, c. set_solver.
Qed.

(** The loop leaves the scores of the columns it does not visit. *)
Lemma ks_loop_frame env reference_data current_data cols drifted scores drifted' scores' col :
  Monitor.ks_loop env reference_data current_data cols drifted scores =
    Ok (drifted', scores') →
  col ∉ cols → scores' !! col = scores !! col.
Proof.
  revert drifted scores.
  induction cols as [|col' cols IH]; intros drifted scores; simpl.
  - by intros [= <- <-].
  - intros Hloop [Hne Hnin]%not_elem_of_cons.
    destruct (reference_data !! col') as [r|]; [|by eapply IH].
    destruct (current_data !! col') as [c|]; [|by eapply IH].
    destruct (ks_2samp env (dropna r) (dropna c)) as [[stat p]|e]; [|done].
    erewrite IH by done. by rewrite lookup_insert_ne.
Qed.

(** It scores exactly the listed columns that both tables have... *)
Lemma ks_loop_dom env reference_data current_data cols drifted scores drifted' scores' :
  Monitor.ks_loop env reference_data current_data cols drifted scores =
    Ok (drifted', scores') →
  dom scores' = dom scores ∪ present reference_data current_data cols.
Proof.
  revert drifted scores. unfold present.
  induction cols as [|col cols IH]; intros drifted scores; simpl.
  - intros [= <- <-]. set_solver.
  - destruct (reference_data !! col) as [r|] eqn:Hr.
    2:{ intros ->%IH. apply not_elem_of_dom in Hr. set_solver. }
    destruct (current_data !! col) as [c|] eqn:Hc.
    2:{ intros ->%IH. apply not_elem_of_dom in Hc. set_solver. }
    destruct (ks_2samp env (dropna r) (dropna c)) as [[stat p]|e]; [|done].
    intros ->%IH. rewrite dom_insert_L.
    assert (col ∈ dom reference_data) by (apply elem_of_dom; eauto).
    assert (col ∈ dom current_data) by (apply elem_of_dom; eauto).
    set_solver.
Qed.

(** ... with what [ks_2samp] returned for them... *)
Lemma ks_loop_scores env reference_data current_data cols drifted scores drifted' scores'
    col r c :
  Monitor.ks_loop env reference_data current_data cols drifted scores =
    Ok (drifted', scores') →
  col ∈ cols → reference_data !! col = Some r → current_data !! col = Some c →
  ∃ stat p, ks_2samp env (dropna r) (dropna c) = Ok (stat, p) ∧
    scores' !! col = Some (Score stat p).
Proof.
  revert drifted scores.
  induction cols as [|col' cols IH]; intros drifted scores; simpl; [set_solver|].
  intros Hloop Hin Hr Hc.
  destruct (decide (col ∈ cols)) as [Hin'|Hnin].
  { destruct (reference_data !! col') as [r'|]; [|by eapply IH].
    destruct (current_data !! col') as [c'|]; [|by eapply IH].
    destruct (ks_2samp env (dropna r') (dropna c')) as [[stat p]|e]; [|done].
    by eapply IH. }
  assert (col = col') as <- by set_solver.
  rewrite Hr, Hc in Hloop.
  destruct (ks_2samp env (dropna r) (dropna c)) as [[stat p]|e]; [|done].
  exists stat, p. split; [done|].
  erewrite ks_loop_frame by done. by rewrite lookup_insert_eq.
Qed.

(** ... and appends to [drifted_features] the visited columns whose p-value
    is below 0.05, one entry per visit. *)
Lemma ks_loop_drifted env reference_data current_data cols drifted scores drifted' scores' :
  Monitor.ks_loop env reference_data current_data cols drifted scores =
    Ok (drifted', scores') →
  ∃ new, drifted' = (drifted ++ new)%list ∧ (length new ≤ length cols)%nat ∧
    ∀ col, col ∈ new ↔
      col ∈ cols ∧ ∃ r c stat p, reference_data !! col = Some r ∧
        current_data !! col = Some c ∧
        ks_2samp env (dropna r) (dropna c) = Ok (stat, p) ∧
        PrimFloat.ltb p 0.05%float = true.
Proof.
  revert drifted scores.
  induction cols as [|col cols IH]; intros drifted scores; simpl.
  - intros [= <- <-]. exists []. rewrite app_nil_r. set_solver.
  - destruct (reference_data !! col) as [r|] eqn:Hr.
    2:{ intros (new & -> & Hlen & Hnew)%IH. exists new.
        split; [done|]. split; [lia|]. intros col'. rewrite Hnew.
        split; [set_solver|]. intros [[->|?]%elem_of_cons Hex]; [|done].
        destruct Hex as (? & ? & ? & ? & ? & _). congruence. }
    destruct (current_data !! col) as [c|] eqn:Hc.
    2:{ intros (new & -> & Hlen & Hnew)%IH. exists new.
        split; [done|]. split; [lia|]. intros col'. rewrite Hnew.
        split; [set_solver|]. intros [[->|?]%elem_of_cons Hex]; [|done].
        destruct Hex as (? & ? & ? & ? & ? & ? & _). congruence. }
    destruct (ks_2samp env (dropna r) (dropna c)) as [[stat p]|e] eqn:Hks; [|done].
    intros (new & -> & Hlen & Hnew)%IH.
    destruct (PrimFloat.ltb p 0.05%float) eqn:Hp.
    + exists (col :: new). split; [by rewrite <- app_assoc|].
      split; [simpl; lia|]. intros col'. rewrite !elem_of_cons, Hnew.
      split; [intros [->|?]; [|tauto]|].
      * split; [by left|]. by exists r, c, stat, p.
      * intros [[->|?] ?]; tauto.
    + exists new. split; [done|]. split; [lia|]. intros col'. rewrite Hnew.
      split; [set_solver|]. intros [[->|?]%elem_of_cons Hex]; [|done].
      destruct Hex as (r' & c' & stat' & p' & ? & ? & Hks' & Hp'). congruence.
Qed.

(** ** The two reports *)

Lemma gt_float_share_of n feature_columns threshold :
  gt_float (Monitor.share_of n feature_columns) threshold =
  Ok (Monitor.exceeds (Monitor.share_of n feature_columns) threshold).
Proof. unfold Monitor.exceeds. by destruct feature_columns. Qed.

Ltac report_lookup :=
  repeat (rewrite lookup_insert_ne by done); by rewrite lookup_insert_eq.

(** The report of the simple detection, field by field. *)
Lemma simple_report env self reference_data current_data feature_columns now monitor' rep :
  Monitor._simple_drift_detection env self reference_data current_data
    feature_columns now = Ok (monitor', rep) →
  ∃ drifted scores,
    Monitor.ks_loop env reference_data current_data feature_columns [] ∅ =
      Ok (drifted, scores) ∧
    let share := Monitor.share_of (length drifted) feature_columns in
    let detected := Monitor.exceeds share (drift_threshold self) in
    rep !! "timestamp" = Some (VStr now) ∧
    rep !! "drift_detected" = Some (VBool detected) ∧
    rep !! "drift_share" = Some share ∧
    rep !! "n_drifted_features" = Some (VInt (Z.of_nat (length drifted))) ∧
    rep !! "n_features" = Some (VInt (Z.of_nat (length feature_columns))) ∧
    rep !! "drifted_features" = Some (VList drifted) ∧
    rep !! "drift_scores" = Some (VScores scores) ∧
    rep !! "threshold" = Some (VFloat (drift_threshold self)) ∧
    rep !! "method" = Some (VStr "ks_test") ∧
    dom rep = simple_fields ∧
    monitor' = {| drift_threshold := drift_threshold self;
                  drift_detected := detected;
                  drift_report := rep |}.
Proof.
  unfold Monitor._simple_drift_detection.
  destruct (Monitor.ks_loop _ _ _ _ _ _) as [[drifted scores]|e]; [|done].
  intros [= <- <-]. exists drifted, scores. split; [done|].
  cbv zeta. repeat split; report_lookup.
Qed.

(** The report of the detection with Evidently, field by field. *)
Lemma evidently_report env self reference_data current_data feature_columns now monitor' rep :
  Monitor.evidently_drift_detection env self reference_data current_data
    feature_columns now = Ok (monitor', rep) →
  ∃ n_drifted : nat,
    forallb (has_column reference_data) feature_columns = true ∧
    forallb (has_column current_data) feature_columns = true ∧
    let share := Monitor.share_of n_drifted feature_columns in
    let detected := Monitor.exceeds share (drift_threshold self) in
    rep !! "timestamp" = Some (VStr now) ∧
    rep !! "drift_detected" = Some (VBool detected) ∧
    rep !! "drift_share" = Some share ∧
    rep !! "n_drifted_features" = Some (VInt (Z.of_nat n_drifted)) ∧
    rep !! "n_features" = Some (VInt (Z.of_nat (length feature_columns))) ∧
    rep !! "threshold" = Some (VFloat (drift_threshold self)) ∧
    dom rep = evidently_fields ∧
    monitor' = {| drift_threshold := drift_threshold self;
                  drift_detected := detected;
                  drift_report := rep |}.
Proof.
  unfold Monitor.evidently_drift_detection, select.
  destruct (forallb (has_column reference_data) feature_columns); [|done].
  destruct (forallb (has_column current_data) feature_columns); [|done].
  simpl. destruct (evidently_metrics _ _ _) as [metrics|e]; [|done].
  simpl. intros [= <- <-].
  eexists. do 2 (split; [done|]).
  cbv zeta. repeat split; report_lookup.
Qed.

(** Which of the two produced the report of [detect_data_drift]. *)
Lemma detect_data_drift_cases env self reference_data current_data feature_columns now r :
  Monitor.detect_data_drift env self reference_data current_data feature_columns now = Ok r →
  Monitor.evidently_drift_detection env self reference_data current_data
    feature_columns now = Ok r ∨
  Monitor._simple_drift_detection env self reference_data current_data
    feature_columns now = Ok r.
Proof.
  unfold Monitor.detect_data_drift.
  destruct (negb _); [by right|].
  destruct (Monitor.evidently_drift_detection _ _ _ _ _ _); [left|right]; done.
Qed.

(** ** The denominator of the drift share *)

(** C1 (as amended): in every report of [detect_data_drift], [n_features] is
    the length of the configured [feature_columns] list, whether or not its
    names are columns of the two tables, and [drift_share] is
    [n_drifted_features] divided by that length (the integer 0 for an empty
    list).  The names missing from a table are skipped in that the simple
    detection gives them no entry in [drift_scores], whose keys are the
    listed names that both tables have, and never lists them in
    [drifted_features]; a report without [drift_scores] (the one made with
    Evidently) exists only when no listed name is missing. *)
Theorem C1_n_features_is_the_configured_length
    env self reference_data current_data feature_columns now monitor' rep :
  Monitor.detect_data_drift env self reference_data current_data feature_columns now =
    Ok (monitor', rep) →
  rep !! "n_features" = Some (VInt (Z.of_nat (length feature_columns))) ∧
  ∃ n : nat,
    rep !! "n_drifted_features" = Some (VInt (Z.of_nat n)) ∧
    rep !! "drift_share" =
      Some (match feature_columns with
            | [] => VInt 0
            | _ => VFloat (PrimFloat.div (float_of_nat n)
                             (float_of_nat (length feature_columns)))
            end) ∧
    (∀ scores, rep !! "drift_scores" = Some (VScores scores) →
       dom scores = present reference_data current_data feature_columns) ∧
    (∀ drifted, rep !! "drifted_features" = Some (VList drifted) →
       n = length drifted ∧
       ∀ col, col ∈ drifted → col ∈ present reference_data current_data feature_columns) ∧
    (rep !! "drift_scores" = None →
       present reference_data current_data feature_columns = list_to_set feature_columns).
Proof.
  intros [Hev|Hsimple]%detect_data_drift_cases.
  - apply evidently_report in Hev
      as (n & Href & Hcur & _ & _ & Hshare & Hn & Hfeat & _ & Hdom & _).
    split; [done|]. exists n. split; [done|]. split; [done|].
    assert (∀ k, k ∈ ({["drift_scores"; "drifted_features"]} : gset string) →
                 rep !! k = None) as Hnone.
    { intros k Hk. apply not_elem_of_dom. rewrite Hdom.
      unfold evidently_fields. set_unfold. intros ?. naive_solver. }
    split; [|split].
    + intros scores. rewrite Hnone; [done|set_solver].
    + intros drifted. rewrite Hnone; [done|set_solver].
    + intros _. unfold present. apply set_eq. intros col.
      rewrite !elem_of_intersection, elem_of_list_to_set.
      split; [tauto|]. intros Hin.
      rewrite forallb_forall in Href, Hcur.
      apply list_elem_of_In in Hin.
      specialize (Href _ Hin). specialize (Hcur _ Hin).
      unfold has_column in *. apply bool_decide_eq_true in Href, Hcur.
      rewrite !elem_of_dom. apply list_elem_of_In in Hin. tauto.
  - apply simple_report in Hsimple
      as (drifted & scores & Hloop & _ & _ & Hshare & Hn & Hfeat & Hdr & Hsc & _).
    split; [done|]. exists (length drifted). split; [done|]. split; [done|].
    split; [|split].
    + intros scores'. rewrite Hsc. intros [= <-].
      rewrite (ks_loop_dom _ _ _ _ _ _ _ _ Hloop), dom_empty_L. set_solver.
    + intros drifted'. rewrite Hdr. intros [= <-]. split; [done|].
      destruct (ks_loop_drifted _ _ _ _ _ _ _ _ Hloop) as (new & -> & _ & Hnew).
      intros col. rewrite app_nil_l, Hnew.
      intros (Hin & r & c & _ & _ & Hr & Hc & _). unfold present.
      rewrite !elem_of_intersection, elem_of_list_to_set, !elem_of_dom. eauto.
    + by rewrite Hsc.
Qed.

(** The example of the spec: the reference table has the columns a, b, c and
    the current one only a, b (a shifted). *)
Lemma C1_witness :
  let r := Monitor.detect_data_drift Examples.env_fallback
             (Examples.monitor0 Examples.env_fallback) Examples.ref_abc Examples.cur_ab
             Examples.abc "t" in
  returns r = true ∧ Examples.field r "n_features" = Some (VInt 3).
Proof.
  cbv zeta.
  destruct (Monitor.detect_data_drift _ _ _ _ _ _) as [[monitor' rep]|e] eqn:Hcall.
  - split; [reflexivity|].
    exact (proj1 (C1_n_features_is_the_configured_length _ _ _ _ _ _ _ _ Hcall)).
  - vm_compute in Hcall. discriminate Hcall.
Defined.

(** C1 fails as stated: with the columns a, b, c configured and c missing
    from the current table, two names are columns of both tables and one of
    them drifted, yet the report has [n_features = 3] and
    [drift_share = 1/3] where the claim has 2 and 1/2. *)
Lemma C1_counterexample :
  let r := Monitor.detect_data_drift Examples.env_fallback
             (Examples.monitor0 Examples.env_fallback) Examples.ref_abc Examples.cur_ab
             Examples.abc "t" in
  size (present Examples.ref_abc Examples.cur_ab Examples.abc) = 2%nat ∧
  Examples.field r "n_drifted_features" = Some (VInt 1) ∧
  Examples.field r "n_features" = Some (VInt 3) ∧
  Examples.field r "drift_share" = Some (VFloat (PrimFloat.div 1 3)) ∧
  PrimFloat.eqb (PrimFloat.div 1 3) (PrimFloat.div 1 2) = false.
Proof. vm_compute. repeat split. Qed.

(** ** The verdict *)

(** C2: in every report [detect_data_drift] returns, whichever detection made
    it, [drift_detected] is the outcome of [drift_share > threshold], where
    the threshold is the [drift_threshold] of the monitor the call was made
    on and is stored in the report's [threshold] field; the monitor keeps
    the same verdict and threshold. *)
Theorem C2_drift_detected_is_share_above_threshold
    env self reference_data current_data feature_columns now monitor' rep :
  Monitor.detect_data_drift env self reference_data current_data feature_columns now =
    Ok (monitor', rep) →
  ∃ share detected,
    rep !! "drift_share" = Some share ∧
    rep !! "threshold" = Some (VFloat (drift_threshold self)) ∧
    rep !! "drift_detected" = Some (VBool detected) ∧
    gt_float share (drift_threshold self) = Ok detected ∧
    drift_detected monitor' = detected ∧
    drift_threshold monitor' = drift_threshold self ∧
    drift_report monitor' = rep.
Proof.
  intros [Hev|Hsimple]%detect_data_drift_cases.
  - apply evidently_report in Hev
      as (n & _ & _ & _ & Hdet & Hshare & _ & _ & Hthr & _ & ->).
    eexists _, _. rewrite gt_float_share_of. done.
  - apply simple_report in Hsimple
      as (drifted & scores & _ & _ & Hdet & Hshare & _ & _ & _ & _ & Hthr & _ & _ & ->).
    eexists _, _. rewrite gt_float_share_of. done.
Qed.

(** One of two features drifted and the threshold is the default 0.1: the
    share 0.5 is above it. *)
Lemma C2_witness :
  let r := Monitor.detect_data_drift Examples.env_fallback
             (Examples.monitor0 Examples.env_fallback) Examples.ref_abc Examples.cur_ab
             ["a"; "b"] "t" in
  returns r = true ∧
  ∃ share detected,
    Examples.field r "drift_share" = Some share ∧
    Examples.field r "drift_detected" = Some (VBool detected) ∧
    gt_float share 0.1%float = Ok detected.
Proof.
  cbv zeta.
  destruct (Monitor.detect_data_drift _ _ _ _ _ _) as [[monitor' rep]|e] eqn:Hcall.
  - split; [reflexivity|].
    destruct (C2_drift_detected_is_share_above_threshold _ _ _ _ _ _ _ _ Hcall)
      as (share & detected & Hshare & _ & Hdet & Hgt & _).
    exists share, detected. repeat split; assumption.
  - vm_compute in Hcall. discriminate Hcall.
Defined.

(** ** The fallback *)

(** C4 (as amended): when Evidently is not installed or its detection raises,
    [detect_data_drift] is [_simple_drift_detection]: it returns that
    function's report, tagged [method = "ks_test"], and raises what that
    function raises.  The report of the simple detection has the six fields
    of the report made with Evidently and three more ([drifted_features],
    [drift_scores], [method]), which that report lacks. *)
Theorem C4_fallback_is_the_simple_detection
    env self reference_data current_data feature_columns now :
  EVIDENTLY_AVAILABLE env = false ∨
  returns (Monitor.evidently_drift_detection env self reference_data current_data
             feature_columns now) = false →
  Monitor.detect_data_drift env self reference_data current_data feature_columns now =
    Monitor._simple_drift_detection env self reference_data current_data
      feature_columns now ∧
  (∀ monitor' rep,
     Monitor._simple_drift_detection env self reference_data current_data
       feature_columns now = Ok (monitor', rep) →
     rep !! "method" = Some (VStr "ks_test") ∧
     dom rep = evidently_fields ∪ {["drifted_features"; "drift_scores"; "method"]}) ∧
  (∀ env' self' reference_data' current_data' feature_columns' now' monitor' rep,
     Monitor.evidently_drift_detection env' self' reference_data' current_data'
       feature_columns' now' = Ok (monitor', rep) →
     rep !! "method" = None ∧ dom rep = evidently_fields).
Proof.
  intros Hfallback. split; [|split].
  - unfold Monitor.detect_data_drift.
    destruct Hfallback as [->|Hraises]; [done|].
    destruct (negb _); [done|].
    by destruct (Monitor.evidently_drift_detection _ _ _ _ _ _).
  - intros monitor' rep
      (drifted & scores & _ & _ & _ & _ & _ & _ & _ & _ & _ & Hmethod & Hdom & _)%simple_report.
    done.
  - intros env' self' reference_data' current_data' feature_columns' now' monitor' rep
      (n & _ & _ & _ & _ & _ & _ & _ & _ & Hdom & _)%evidently_report.
    split; [|done]. apply not_elem_of_dom. rewrite Hdom. unfold evidently_fields.
    set_unfold. naive_solver.
Qed.

(** Evidently is installed and raises on the example tables. *)
Lemma C4_witness :
  let r := Monitor.detect_data_drift Examples.env_evidently_raises
             (Examples.monitor0 Examples.env_evidently_raises) Examples.ref_abc
             Examples.ref_abc Examples.abc "t" in
  returns (Monitor.evidently_drift_detection Examples.env_evidently_raises
             (Examples.monitor0 Examples.env_evidently_raises) Examples.ref_abc
             Examples.ref_abc Examples.abc "t") = false ∧
  r = Monitor._simple_drift_detection Examples.env_evidently_raises
        (Examples.monitor0 Examples.env_evidently_raises) Examples.ref_abc
        Examples.ref_abc Examples.abc "t".
Proof.
  cbv zeta.
  assert (returns (Monitor.evidently_drift_detection Examples.env_evidently_raises
             (Examples.monitor0 Examples.env_evidently_raises) Examples.ref_abc
             Examples.ref_abc Examples.abc "t") = false) as Hraises
    by (vm_compute; reflexivity).
  split; [exact Hraises|].
  exact (proj1 (C4_fallback_is_the_simple_detection _ _ _ _ _ _ (or_intror Hraises))).
Defined.

(** C4 fails as stated: when Evidently raises, the report that comes back is
    tagged ["ks_test"], not ["fallback"], and it has three fields that the
    report made with Evidently on the same tables does not have. *)
Lemma C4_counterexample :
  let fallback := Monitor.detect_data_drift Examples.env_evidently_raises
                    (Examples.monitor0 Examples.env_evidently_raises) Examples.ref_abc
                    Examples.ref_abc Examples.abc "t" in
  let advanced := Monitor.detect_data_drift Examples.env_evidently
                    (Examples.monitor0 Examples.env_evidently) Examples.ref_abc
                    Examples.ref_abc Examples.abc "t" in
  returns fallback = true ∧ returns advanced = true ∧
  Examples.field fallback "method" = Some (VStr "ks_test") ∧
  Examples.field advanced "method" = None ∧
  is_Some (Examples.field fallback "drift_scores") ∧
  Examples.field advanced "drift_scores" = None ∧
  is_Some (Examples.field fallback "drifted_features") ∧
  Examples.field advanced "drifted_features" = None.
Proof.
  vm_compute. repeat split; eexists; reflexivity.
Qed.

(** ** Empty samples *)

(** The loop raises the exception of the first name of the list for which
    [ks_2samp] raises. *)
Lemma ks_loop_first_raise env reference_data current_data cols drifted scores e :
  Monitor.ks_loop env reference_data current_data cols drifted scores = Raise e →
  ∃ before col after,
    cols = (before ++ col :: after)%list ∧
    comparison env reference_data current_data col = Some (Raise e) ∧
    forallb (λ col, negb (comparison_raises env reference_data current_data col)) before
      = true.
Proof.
  revert drifted scores.
  induction cols as [|col cols IH]; intros drifted scores; simpl; [done|].
  intros Hloop.
  destruct (comparison env reference_data current_data col) as [[[stat p]|e']|] eqn:Hcmp.
  - assert (∃ d s, Monitor.ks_loop env reference_data current_data cols d s = Raise e)
      as (d & s & Hrest).
    { unfold comparison in Hcmp.
      destruct (reference_data !! col) as [r|]; [|done].
      destruct (current_data !! col) as [c|]; [|done].
      injection Hcmp as Hks. rewrite Hks in Hloop. eauto. }
    destruct (IH _ _ Hrest) as (before & col' & after & -> & Hcol' & Hbefore).
    exists (col :: before), col', after. split; [done|]. split; [done|].
    simpl. unfold comparison_raises at 1. by rewrite Hcmp.
  - exists [], col, cols. split; [done|]. split; [|done].
    unfold comparison in Hcmp |- *.
    destruct (reference_data !! col) as [r|]; [|done].
    destruct (current_data !! col) as [c|]; [|done].
    injection Hcmp as Hks. rewrite Hks in Hloop |- *. by injection Hloop as ->.
  - assert (Monitor.ks_loop env reference_data current_data cols drifted scores = Raise e)
      as Hrest.
    { unfold comparison in Hcmp.
      destruct (reference_data !! col) as [r|]; [|done].
      by destruct (current_data !! col) as [c|]. }
    destruct (IH _ _ Hrest) as (before & col' & after & -> & Hcol' & Hbefore).
    exists (col :: before), col', after. split; [done|]. split; [done|].
    simpl. unfold comparison_raises at 1. by rewrite Hcmp.
Qed.

(** The loop gets through the names for which [ks_2samp] does not raise. *)
Lemma ks_loop_no_raise env reference_data current_data cols drifted scores :
  forallb (λ col, negb (comparison_raises env reference_data current_data col)) cols
    = true →
  ∃ drifted' scores',
    Monitor.ks_loop env reference_data current_data cols drifted scores =
      Ok (drifted', scores').
Proof.
  revert drifted scores.
  induction cols as [|col cols IH]; intros drifted scores; simpl; [by eauto|].
  unfold comparison_raises at 1. unfold comparison.
  intros [Hcol Hcols]%andb_true_iff.
  destruct (reference_data !! col) as [r|]; [|by apply IH].
  destruct (current_data !! col) as [c|]; [|by apply IH].
  destruct (ks_2samp env (dropna r) (dropna c)) as [[stat p]|e]; [by apply IH|done].
Qed.

(** C5 (as amended): the simple detection makes no check of its own on the
    observations left after [dropna]; for a listed column of both tables
    whose reference or current sample is empty, the outcome is that of
    [ks_2samp] on the two samples.  If [ks_2samp] raises there, the call
    raises: that very exception when [ks_2samp] raises for no name listed
    before the column; and whatever the call raises is the exception
    [ks_2samp] raised for the first listed name for which it raises.  If
    [ks_2samp] returns a statistic and a p-value there, a call that returns
    has recorded them under the column in [drift_scores] and lists the
    column in [drifted_features] exactly when the p-value is below 0.05. *)
Theorem C5_empty_samples_are_left_to_ks_2samp
    env self reference_data current_data before col after now r c :
  reference_data !! col = Some r → current_data !! col = Some c →
  dropna r = [] ∨ dropna c = [] →
  let feature_columns := (before ++ col :: after)%list in
  let call := Monitor._simple_drift_detection env self reference_data current_data
                feature_columns now in
  (∀ e, ks_2samp env (dropna r) (dropna c) = Raise e →
     returns call = false ∧
     (forallb (λ col', negb (comparison_raises env reference_data current_data col'))
        before = true →
      call = Raise e)) ∧
  (∀ e, call = Raise e →
     ∃ before' col' after' r' c',
       feature_columns = (before' ++ col' :: after')%list ∧
       forallb (λ col', negb (comparison_raises env reference_data current_data col'))
         before' = true ∧
       reference_data !! col' = Some r' ∧ current_data !! col' = Some c' ∧
       ks_2samp env (dropna r') (dropna c') = Raise e) ∧
  (∀ monitor' rep, call = Ok (monitor', rep) →
     ∃ stat p scores drifted,
       ks_2samp env (dropna r) (dropna c) = Ok (stat, p) ∧
       rep !! "drift_scores" = Some (VScores scores) ∧
       scores !! col = Some (Score stat p) ∧
       rep !! "drifted_features" = Some (VList drifted) ∧
       (col ∈ drifted ↔ PrimFloat.ltb p 0.05%float = true)).
Proof.
  intros Hr Hc _ feature_columns call. subst call.
  assert (col ∈ feature_columns) as Hin by (subst feature_columns; set_solver).
  split; [|split].
  - intros e Hks. split.
    + destruct (Monitor._simple_drift_detection _ _ _ _ _ _)
        as [[monitor' rep]|e'] eqn:Hcall; [|done].
      apply simple_report in Hcall as (drifted & scores & Hloop & _).
      destruct (ks_loop_scores _ _ _ _ _ _ _ _ _ _ _ Hloop Hin Hr Hc) as (? & ? & ? & _).
      congruence.
    + intros Hbefore. unfold Monitor._simple_drift_detection. subst feature_columns.
      rewrite ks_loop_app.
      destruct (ks_loop_no_raise env reference_data current_data before [] ∅ Hbefore)
        as (d & s & ->).
      simpl. by rewrite Hr, Hc, Hks.
  - intros e. unfold Monitor._simple_drift_detection.
    destruct (Monitor.ks_loop _ _ _ _ _ _) as [[drifted scores]|e'] eqn:Hloop; [done|].
    intros [= ->].
    destruct (ks_loop_first_raise _ _ _ _ _ _ _ Hloop)
      as (before' & col' & after' & Hcols & Hcmp & Hbefore).
    unfold comparison in Hcmp.
    destruct (reference_data !! col') as [r'|] eqn:Hr'; [|done].
    destruct (current_data !! col') as [c'|] eqn:Hc'; [|done].
    injection Hcmp as Hks. by exists before', col', after', r', c'.
  - intros monitor' rep
      (drifted & scores & Hloop & _ & _ & _ & _ & _ & Hdr & Hsc & _)%simple_report.
    destruct (ks_loop_scores _ _ _ _ _ _ _ _ _ _ _ Hloop Hin Hr Hc)
      as (stat & p & Hks & Hscore).
    exists stat, p, scores, drifted. do 4 (split; [done|]).
    destruct (ks_loop_drifted _ _ _ _ _ _ _ _ Hloop) as (new & -> & _ & Hnew).
    rewrite app_nil_l, Hnew. split.
    + intros (_ & r' & c' & stat' & p' & ? & ? & ? & ?). congruence.
    + intros Hp. split; [done|]. by exists r, c, stat, p.
Qed.

(** The current table has only NaN in column a, listed after b; [ks_2samp]
    raises on an empty sample, as scipy did up to 1.13, and the call raises
    that exception. *)
Lemma C5_witness :
  dropna [PrimFloat.nan; PrimFloat.nan] = [] ∧
  Monitor._simple_drift_detection Examples.env_fallback
    (Examples.monitor0 Examples.env_fallback) Examples.ref_abc
    Examples.cur_a_nan ["b"; "a"; "c"] "t" =
  Raise (Exn "ValueError" "Data passed to ks_2samp must not be empty").
Proof.
  split; [reflexivity|].
  refine (proj2 (proj1 (C5_empty_samples_are_left_to_ks_2samp Examples.env_fallback
                   (Examples.monitor0 Examples.env_fallback) Examples.ref_abc
                   Examples.cur_a_nan ["b"] "a" ["c"] "t" [0; 1; 2; 3; 4]%float
                   [PrimFloat.nan; PrimFloat.nan] _ _ _) _ _) _).
  - vm_compute. reflexivity.
  - vm_compute. reflexivity.
  - right. reflexivity.
  - vm_compute. reflexivity.
  - vm_compute. reflexivity.
Defined.

(** C5 fails as stated: on a column whose current sample is empty after
    [dropna], the call fails with the [ValueError] of a [ks_2samp] that
    raises, and with a [ks_2samp] that returns NaN it does not fail at all:
    the report has a statistic and a p-value for the column and does not
    flag it. *)
Lemma C5_counterexample :
  dropna [PrimFloat.nan; PrimFloat.nan] = [] ∧
  Monitor._simple_drift_detection Examples.env_fallback
    (Examples.monitor0 Examples.env_fallback) Examples.ref_abc Examples.cur_a_nan
    ["a"] "t" = Raise (Exn "ValueError" "Data passed to ks_2samp must not be empty") ∧
  String.eqb "ValueError" "InsufficientDataError" = false ∧
  let r := Monitor._simple_drift_detection Examples.env_fallback_nan
             (Examples.monitor0 Examples.env_fallback_nan) Examples.ref_abc
             Examples.cur_a_nan ["a"] "t" in
  returns r = true ∧
  Examples.field r "drift_scores" =
    Some (VScores {["a" := Score PrimFloat.nan PrimFloat.nan]}) ∧
  Examples.field r "drifted_features" = Some (VList []).
Proof. vm_compute. repeat split. Qed.

(** ** The threshold of an instance *)

(** A threshold that is given and is not zero is the threshold of the
    instance. *)
Lemma init_keeps_nonzero_threshold env t :
  float_truthy t = true →
  drift_threshold (Monitor.__init__ env (Some t)) = t.
Proof. intros Ht. simpl. by rewrite Ht. Qed.

(** Without an argument the threshold is [Config.DRIFT_THRESHOLD]. *)
Lemma init_default_threshold env :
  drift_threshold (Monitor.__init__ env None) = Config.DRIFT_THRESHOLD env.
Proof. reflexivity. Qed.

(** C6 at the failing input: [DriftMonitor(drift_threshold=0.0)] does not get
    the threshold 0.0; [0.0 or Config.DRIFT_THRESHOLD] is the configured
    default, 0.1 when the environment variable is not set, and the same
    happens to [-0.0]. *)
Theorem C6_zero_threshold_is_replaced_by_the_default :
  drift_threshold (Monitor.__init__ Examples.env_fallback (Some 0%float)) = 0.1%float ∧
  drift_threshold (Monitor.__init__ Examples.env_fallback (Some (-0)%float)) = 0.1%float ∧
  PrimFloat.eqb 0.1 0 = false ∧
  ∀ env, drift_threshold (Monitor.__init__ env (Some 0%float)) =
         Config.DRIFT_THRESHOLD env.
Proof. repeat split. Qed.

(** * Properties of the drift detector *)

(** The fields of a report that [check_drift] and [create_alert] read. *)
Lemma detect_data_drift_report
    env self reference_data current_data feature_columns now monitor' rep :
  Monitor.detect_data_drift env self reference_data current_data feature_columns now =
    Ok (monitor', rep) →
  ∃ n : nat,
    let share := Monitor.share_of n feature_columns in
    rep !! "drift_detected" =
      Some (VBool (Monitor.exceeds share (drift_threshold self))) ∧
    rep !! "drift_share" = Some share ∧
    rep !! "n_drifted_features" = Some (VInt (Z.of_nat n)) ∧
    rep !! "n_features" = Some (VInt (Z.of_nat (length feature_columns))).
Proof.
  intros [Hev|Hsimple]%detect_data_drift_cases.
  - apply evidently_report in Hev as (n & _ & _ & _ & ? & ? & ? & ? & _).
    by exists n.
  - apply simple_report in Hsimple as (drifted & scores & _ & _ & ? & ? & ? & ? & _).
    by exists (length drifted).
Qed.

Lemma create_alert_ok rep utcnow share n_drifted n_features high :
  rep !! "drift_share" = Some share →
  gt_float share 0.3%float = Ok high →
  rep !! "n_drifted_features" = Some n_drifted →
  rep !! "n_features" = Some n_features →
  ∃ alert, Detector.create_alert rep utcnow = Ok alert ∧
    severity alert = (if high then "high" else "medium") ∧
    details alert = rep ∧
    message alert = "Data drift detected! " ++ Detector.format n_drifted ++ " out of "
                    ++ Detector.format n_features ++ " features have drifted.".
Proof.
  intros Hshare Hhigh Hn Hm. unfold Detector.create_alert, getitem.
  rewrite Hshare. simpl. rewrite Hhigh. simpl. rewrite Hn. simpl. rewrite Hm. simpl.
  eexists. split; [done|]. done.
Qed.

Lemma create_alert_details rep utcnow alert :
  Detector.create_alert rep utcnow = Ok alert → details alert = rep.
Proof.
  unfold Detector.create_alert, getitem.
  destruct (rep !! "drift_share") as [share|]; [simpl|done].
  destruct (gt_float share 0.3) as [high|]; [simpl|done].
  destruct (rep !! "n_drifted_features"); [simpl|done].
  destruct (rep !! "n_features"); [simpl|done].
  by intros [= <-].
Qed.

(** ** Alerts *)

(** C3: a call of [check_drift] that reads the two tables and obtains a
    report [rep] from [detect_data_drift] goes by the report's
    [drift_detected].  When it is true, [create_alert] returns an alert for
    that report, with severity ["high"] when [drift_share > 0.3] and
    ["medium"] otherwise; the call appends this one alert to the history,
    leaves every other list of the store as it was, and returns the report
    with [action_required] true.  When it is false, the call returns the
    report with [action_required] false and the store is unchanged: no alert
    is appended. *)
Theorem C3_one_alert_when_drift_is_detected
    env read_csv self σ reference_data_path current_data_path feature_columns now utcnow
    reference_data current_data monitor' rep :
  read_csv reference_data_path = Ok reference_data →
  read_csv current_data_path = Ok current_data →
  Monitor.detect_data_drift env (monitor self) reference_data current_data
    feature_columns now = Ok (monitor', rep) →
  let call := Detector.check_drift env read_csv self σ reference_data_path
                current_data_path feature_columns now utcnow in
  let self' := {| monitor := monitor'; alerts := alerts self |} in
  let history := default [] (σ !! alerts self) in
  ∃ (detected : bool) (share : value),
    rep !! "drift_detected" = Some (VBool detected) ∧
    rep !! "drift_share" = Some share ∧
    if detected then
      ∃ (alert : Alert) (high : bool),
        Detector.create_alert rep utcnow = Ok alert ∧
        gt_float share 0.3%float = Ok high ∧
        severity alert = (if high then "high" else "medium") ∧
        alert_type alert = "data_drift" ∧
        details alert = rep ∧
        call = (self', <[alerts self := (history ++ [alert])%list]> σ,
                Ok {| res_drift_report := rep;
                      res_alerts := alerts self;
                      res_action_required := VBool true |})
    else
      call = (self', σ,
              Ok {| res_drift_report := rep;
                    res_alerts := alerts self;
                    res_action_required := VBool false |}).
Proof.
  intros Href Hcur Hcall. cbv zeta. unfold Detector.check_drift.
  rewrite Href, Hcur, Hcall.
  apply detect_data_drift_report in Hcall as (n & Hdet & Hshare & Hn & Hm).
  cbv zeta in Hdet. unfold getitem. rewrite Hdet.
  exists (Monitor.exceeds (Monitor.share_of n feature_columns) (drift_threshold (monitor self))),
    (Monitor.share_of n feature_columns).
  split; [done|]. split; [done|].
  destruct (Monitor.exceeds _ (drift_threshold (monitor self))) eqn:Hexceeds; simpl.
  - destruct (create_alert_ok rep utcnow _ _ _ _ Hshare
                (gt_float_share_of n feature_columns 0.3%float) Hn Hm)
      as (alert & Halert & Hsev & Hdetails & _).
    exists alert, (Monitor.exceeds (Monitor.share_of n feature_columns) 0.3%float).
    split; [done|]. split; [apply gt_float_share_of|]. split; [done|].
    split.
    { revert Halert. unfold Detector.create_alert, getitem.
      rewrite Hshare. simpl. rewrite gt_float_share_of. simpl.
      rewrite Hn. simpl. rewrite Hm. simpl. by intros [= <-]. }
    split; [done|]. by rewrite Halert.
  - done.
Qed.

(** One column out of three drifted, above the default threshold 0.1 and
    above 0.3: the first call of a new detector leaves one ["high"] alert in
    its history. *)
Lemma C3_witness :
  ∃ alert : Alert,
    Detector.create_alert Examples.detected_abc.2 "u" = Ok alert ∧
    severity alert = "high" ∧
    Detector.check_drift Examples.env_fallback Examples.example_files
      Examples.detector0 Examples.store0 "ref.csv" "cur.csv" Examples.abc "t" "u" =
      ({| monitor := Examples.detected_abc.1; alerts := alerts Examples.detector0 |},
       <[alerts Examples.detector0 :=
           (default [] (Examples.store0 !! alerts Examples.detector0) ++ [alert])%list]>
         Examples.store0,
       Ok {| res_drift_report := Examples.detected_abc.2;
             res_alerts := alerts Examples.detector0;
             res_action_required := VBool true |}).
Proof.
  assert (Monitor.detect_data_drift Examples.env_fallback (monitor Examples.detector0)
            Examples.ref_abc Examples.cur_ab Examples.abc "t" =
          Ok (Examples.detected_abc.1, Examples.detected_abc.2)) as Hcall
    by (vm_compute; reflexivity).
  destruct (C3_one_alert_when_drift_is_detected Examples.env_fallback
              Examples.example_files Examples.detector0 Examples.store0
              "ref.csv" "cur.csv" Examples.abc "t" "u" Examples.ref_abc Examples.cur_ab
              Examples.detected_abc.1 Examples.detected_abc.2 eq_refl eq_refl Hcall)
    as (detected & share & Hdetected & Hshare & Hcheck).
  vm_compute in Hdetected. injection Hdetected as <-.
  vm_compute in Hshare. injection Hshare as <-.
  destruct Hcheck as (alert & high & Halert & Hhigh & Hseverity & _ & _ & Hcheck).
  vm_compute in Hhigh. injection Hhigh as <-.
  exists alert. split; [exact Halert|]. split; [exact Hseverity|]. exact Hcheck.
Defined.

(** A drifted column out of three: a ["high"] alert; out of four configured
    names: a ["medium"] one; identical tables: none. *)
Example check_drift_examples :
  let σ0 : store := ∅ in
  let '(detector, σ) := Detector.__init__ Examples.env_fallback σ0 in
  let call features :=
    Detector.check_drift Examples.env_fallback Examples.example_files detector σ
      "ref.csv" "cur.csv" features "t" "u" in
  (severity <$> (call ["a"; "b"; "c"]).1.2 !!! alerts detector) = ["high"] ∧
  (message <$> (call ["a"; "b"; "c"]).1.2 !!! alerts detector) =
    ["Data drift detected! 1 out of 3 features have drifted."] ∧
  (severity <$> (call ["a"; "b"; "c"; "d"]).1.2 !!! alerts detector) = ["medium"] ∧
  (severity <$> (Detector.check_drift Examples.env_fallback Examples.example_files
                   detector σ "ref.csv" "same.csv" ["a"; "b"; "c"] "t" "u").1.2
                !!! alerts detector) = [].
Proof. vm_compute. repeat split. Qed.

(** ** The history *)

(** One call: the detector keeps its list, and the list grows by the alert of
    the call when the call detected drift, and not otherwise. *)
Lemma check_drift_history
    env read_csv self σ reference_data_path current_data_path feature_columns now utcnow
    history :
  σ !! alerts self = Some history →
  let call := Detector.check_drift env read_csv self σ reference_data_path
                current_data_path feature_columns now utcnow in
  alerts call.1.1 = alerts self ∧
  (∀ res, call.2 = Ok res → res_alerts res = alerts self) ∧
  ∃ new, call.1.2 !! alerts self = Some (history ++ new)%list ∧
    details <$> new = detected_reports [(call.2, call.1.2)].
Proof.
  intros Hhist. cbv zeta.
  destruct (Detector.check_drift _ _ _ _ _ _ _ _ _) as [[self' σ'] out] eqn:Hcheck.
  simpl. revert Hcheck. unfold Detector.check_drift.
  assert (∃ new : list Alert, σ !! alerts self = Some (history ++ new)%list ∧
            details <$> new = []) as Hsame
    by (exists []; by rewrite app_nil_r).
  destruct (read_csv reference_data_path) as [reference_data|e];
    [|by intros [= <- <- <-]].
  destruct (read_csv current_data_path) as [current_data|e];
    [|by intros [= <- <- <-]].
  destruct (Monitor.detect_data_drift _ _ _ _ _ _) as [[monitor' rep]|e];
    [|by intros [= <- <- <-]].
  destruct (getitem rep "drift_detected") as [detected|e];
    [|by intros [= <- <- <-]].
  destruct (truthy detected) eqn:Htruthy.
  - destruct (Detector.create_alert rep utcnow) as [alert|e] eqn:Halert;
      [|by intros [= <- <- <-]].
    intros [= <- <- <-]. simpl. split; [done|]. split; [by intros res [= <-]|].
    exists [alert]. unfold Detector.append_alert. simpl.
    rewrite lookup_insert_eq, Hhist. split; [done|].
    unfold detected_reports, detected_report. simpl. rewrite Htruthy.
    by rewrite (create_alert_details _ _ _ Halert).
  - intros [= <- <- <-]. simpl. split; [done|]. split; [by intros res [= <-]|].
    unfold detected_reports, detected_report. simpl. by rewrite Htruthy.
Qed.

(** A sequence of calls: every result refers to the detector's list, and
    when a call ends the list holds the alerts of all the calls so far that
    detected drift; the list only grows afterwards. *)
Lemma check_drift_calls_history env read_csv calls :
  ∀ self σ history,
  σ !! alerts self = Some history →
  let run := Detector.check_drift_calls env read_csv self σ calls in
  (∃ new, run.1.2 !! alerts self = Some (history ++ new)%list ∧
     details <$> new = detected_reports run.2) ∧
  ∀ i out σi, run.2 !! i = Some (out, σi) →
    (∀ res, out = Ok res → res_alerts res = alerts self) ∧
    ∃ new later, σi !! alerts self = Some (history ++ new)%list ∧
      details <$> new = detected_reports (take (S i) run.2) ∧
      run.1.2 !! alerts self = Some (history ++ new ++ later)%list.
Proof.
  induction calls as [|c calls IH]; intros self σ history Hhist; cbv zeta.
  - simpl. split; [|done]. exists []. by rewrite app_nil_r.
  - simpl.
    pose proof (check_drift_history env read_csv self σ (Detector.call_reference c)
      (Detector.call_current c) (Detector.call_features c) (Detector.call_now c)
      (Detector.call_utcnow c) history Hhist) as Hstep. cbv zeta in Hstep.
    destruct (Detector.check_drift _ _ _ _ _ _ _ _ _) as [[self1 σ1] out1].
    simpl in Hstep. destruct Hstep as (Hself & Hres & new1 & Hσ1 & Hnew1).
    rewrite <- Hself in Hσ1.
    specialize (IH self1 σ1 _ Hσ1). cbv zeta in IH.
    destruct (Detector.check_drift_calls _ _ _ _ _) as [[self2 σ2] outs].
    simpl in IH. destruct IH as [(new2 & Hσ2 & Hnew2) IH]. simpl.
    rewrite Hself in *.
    split.
    + exists (new1 ++ new2)%list. rewrite app_assoc. split; [done|].
      rewrite fmap_app, Hnew1, Hnew2. by destruct (detected_report _).
    + intros [|i] out σi Hi; simpl in Hi.
      * injection Hi as <- <-. split; [done|]. exists new1, new2.
        split; [done|]. split; [by rewrite take_0|]. by rewrite app_assoc.
      * destruct (IH i out σi Hi) as (Hres' & new & later & Hσi & Hnew & Hend).
        split; [done|]. exists (new1 ++ new)%list, later.
        rewrite !app_assoc. split; [done|]. rewrite <- app_assoc in Hend.
        split; [|by rewrite <- !app_assoc].
        change (take (S (S i)) ((out1, σ1) :: outs))
          with ((out1, σ1) :: take (S i) outs).
        rewrite fmap_app, Hnew1, Hnew.
        unfold detected_reports at 2. simpl. by destruct (detected_report _).
Qed.

(** [DriftDetector.__init__] creates the list, empty. *)
Lemma init_history env σ0 :
  (Detector.__init__ env σ0).2 !! alerts (Detector.__init__ env σ0).1 = Some [].
Proof. simpl. apply lookup_insert_eq. Qed.

(** C10: in a sequence of calls of [check_drift] on one instance, starting
    from its construction, the ["alerts"] entry of every result is the
    instance's own list.  When a call returns, that list holds one alert for
    each call so far that detected drift, in order, and not only the alert
    of this call: after k detecting calls it has length k.  The same list
    object is extended by the later calls, so that at the end every result
    shows the alerts of the whole sequence. *)
Theorem C10_alerts_entry_is_the_accumulated_history env read_csv σ0 calls i res σi :
  let detector := (Detector.__init__ env σ0).1 in
  let run := Detector.check_drift_calls env read_csv detector
               (Detector.__init__ env σ0).2 calls in
  run.2 !! i = Some (Ok res, σi) →
  res_alerts res = alerts detector ∧
  ∃ history later,
    σi !! res_alerts res = Some history ∧
    details <$> history = detected_reports (take (S i) run.2) ∧
    length history = length (detected_reports (take (S i) run.2)) ∧
    run.1.2 !! res_alerts res = Some (history ++ later)%list ∧
    details <$> (history ++ later)%list = detected_reports run.2.
Proof.
  intros detector run Hi.
  destruct (check_drift_calls_history env read_csv calls detector _ [] (init_history env σ0))
    as [(all & Hall & Hdetails) Hcalls].
  fold detector in Hall, Hdetails, Hcalls. fold run in Hall, Hdetails, Hcalls.
  destruct (Hcalls i _ _ Hi) as (Hres & new & later & Hσi & Hnew & Hend).
  rewrite (Hres res eq_refl). split; [done|].
  rewrite app_nil_l in *. exists new, later.
  split; [done|]. split; [done|]. split; [by rewrite <- Hnew, length_fmap|].
  split; [done|]. rewrite Hend in Hall. by injection Hall as ->.
Qed.

(** Drift, no drift, drift: the third result shows two alerts. *)
Lemma C10_witness :
  let detector := (Detector.__init__ Examples.env_fallback ∅).1 in
  let run := Detector.check_drift_calls Examples.env_fallback Examples.example_files
               detector (Detector.__init__ Examples.env_fallback ∅).2
               Examples.three_calls in
  ∃ res σi history,
    run.2 !! 2%nat = Some (Ok res, σi) ∧
    σi !! res_alerts res = Some history ∧ length history = 2%nat.
Proof.
  cbv zeta.
  destruct ((Detector.check_drift_calls Examples.env_fallback Examples.example_files
               (Detector.__init__ Examples.env_fallback ∅).1
               (Detector.__init__ Examples.env_fallback ∅).2
               Examples.three_calls).2 !! 2%nat) as [[[res|e] σi]|] eqn:Hthird.
  - destruct (C10_alerts_entry_is_the_accumulated_history _ _ _ _ _ _ _ Hthird)
      as (_ & history & later & Hσi & _ & Hlen & _).
    exists res, σi, history. split; [reflexivity|]. split; [exact Hσi|].
    rewrite Hlen. vm_compute. reflexivity.
  - vm_compute in Hthird. discriminate Hthird.
  - vm_compute in Hthird. discriminate Hthird.
Defined.

(** * Properties of the DAG *)

Section DagFacts.
Import Dag.

(** ** The log *)

Lemma starts_app es es' t : starts (es ++ es')%list t = starts es t || starts es' t.
Proof. apply existsb_app. Qed.

Lemma calls_app es es' f : calls (es ++ es')%list f = calls es f || calls es' f.
Proof. apply existsb_app. Qed.

Lemma silent_ret {A} (a : A) : silent (mret a).
Proof. done. Qed.

Lemma silent_lift {A} (r : result A) : silent (lift r).
Proof. done. Qed.

Lemma silent_emit_called f : silent (emit (Called f)).
Proof. done. Qed.

Lemma silent_bind {A B} (m : traced A) (k : A → traced B) :
  silent m → (∀ a, silent (k a)) → silent (m ≫= k).
Proof.
  intros Hm Hk t. specialize (Hm t).
  destruct m as [es [a|e]]; simpl in *; [|done].
  specialize (Hk a t). destruct (k a) as [es' r]. simpl in *.
  by rewrite starts_app, Hm, Hk.
Qed.

Ltac silent_steps :=
  repeat first
    [ apply silent_lift | apply silent_emit_called | apply silent_ret
    | apply silent_bind; [|intros]
    | match goal with |- silent (let '(_, _) := ?p in _) => destruct p end ].

Lemma callable_silent t f w x :
  operator_of t = PythonOperator f ∨ operator_of t = BranchPythonOperator f →
  silent (f w x).
Proof.
  intros Hop.
  assert (f = collect_recent_data ∨ f = detect_drift ∨ f = check_drift_decision ∨
          f = trigger_retrain ∨ f = evaluate_new_model ∨ f = deploy_to_staging ∨
          f = send_drift_alert) as Hf
    by (destruct t, Hop as [Hop|Hop]; simpl in Hop; simplify_eq; tauto).
  destruct Hf as [->|[->|[->|[->|[->|[->| ->]]]]]].
  - unfold collect_recent_data. silent_steps.
  - unfold detect_drift. destruct (negb _); silent_steps.
  - unfold check_drift_decision. destruct (truthy _); silent_steps.
  - unfold trigger_retrain. silent_steps. destruct (trigger_dag w); silent_steps.
  - unfold evaluate_new_model. silent_steps.
  - unfold deploy_to_staging. silent_steps.
  - unfold send_drift_alert. destruct (xcom_pull _ _ _); silent_steps.
Qed.

(** The tries of a task log the task, and no other. *)
Lemma run_tries_starts {A} t (f : nat → traced A) try_number retries_left t' :
  (∀ n, silent (f n)) →
  starts (run_tries t f try_number retries_left).1 t' = task_eqb t t'.
Proof.
  intros Hf. revert try_number.
  induction retries_left as [|k IH]; intros try_number; simpl.
  - specialize (Hf try_number t'). destruct (f try_number) as [es [a|e]]; simpl in *;
      rewrite Hf; apply orb_false_r.
  - specialize (Hf try_number t'). destruct (f try_number) as [es [a|e]]; simpl in *.
    + rewrite Hf. apply orb_false_r.
    + specialize (IH (S try_number)).
      destruct (run_tries t f (S try_number) k) as [es' r']. simpl in *.
      rewrite starts_app, Hf, IH. simpl. apply orb_diag.
Qed.
Lemma run_tries_calls {A} t (f : nat → traced A) try_number retries_left name :
  (∀ n, calls (f n).1 name = false) →
  calls (run_tries t f try_number retries_left).1 name = false.
Proof.
  intros Hf. revert try_number.
  induction retries_left as [|k IH]; intros try_number; simpl.
  - specialize (Hf try_number). by destruct (f try_number) as [es [a|e]].
  - specialize (Hf try_number). destruct (f try_number) as [es [a|e]]; simpl in *;
      [done|].
    specialize (IH (S try_number)).
    destruct (run_tries t f (S try_number) k) as [es' r']. simpl in *.
    by rewrite calls_app, Hf, IH.
Qed.

(** ** XCom *)

Lemma push_all_lookup_ne (t : task) (pushes : list (string * value)) (ret : value) (x : xcoms) (tid k : string) :
  task_id t ≠ tid → push_all t pushes ret x !! (tid, k) = x !! (tid, k).
Proof.
  intros Hne. unfold push_all.
  assert (fold_left (λ acc kv, <[(task_id t, kv.1):=kv.2]> acc) pushes x !! (tid, k)
          = x !! (tid, k)) as Hfold.
  { revert x. induction pushes as [|kv pushes IH]; intros x; simpl; [done|].
    rewrite IH. apply lookup_insert_ne. congruence. }
  destruct ret; rewrite ?lookup_insert_ne by congruence; done.
Qed.

Lemma push_all_nil_lookup (t : task) (ret : value) (x : xcoms) (k : string) :
  k ≠ "return_value" → push_all t [] ret x !! (task_id t, k) = x !! (task_id t, k).
Proof.
  intros Hne. unfold push_all. simpl.
  destruct ret; rewrite ?lookup_insert_ne by congruence; done.
Qed.

Lemma push_all_return (t : task) (pushes : list (string * value)) (ret : value)
    (x : xcoms) :
  ret ≠ VNone → push_all t pushes ret x !! (task_id t, "return_value") = Some ret.
Proof.
  intros Hne. unfold push_all. destruct ret; try done; apply lookup_insert_eq.
Qed.

(** ** One step of the scheduler *)

Variable worlds : task → nat → World.

Lemma task_eqb_eq a b : task_eqb a b = true → a = b.
Proof. by destruct a, b. Qed.

Lemma task_eqb_refl a : task_eqb a a = true.
Proof. by destruct a. Qed.

Lemma state_of_set_state t s r t' :
  state_of (set_state t s r) t' = if task_eqb t t' then Some s else state_of r t'.
Proof. done. Qed.

(** A task that is decided is left alone. *)
Lemma step_decided r t s : state_of r t = Some s → step worlds r t = r.
Proof. intros H. unfold step. by rewrite H. Qed.

Lemma skip_all_except_trace t branch r : trace (skip_all_except t branch r) = trace r.
Proof.
  unfold skip_all_except. generalize (downstream t). intros l. revert r.
  induction l as [|d l IH]; intros r; simpl; [done|].
  rewrite IH. by destruct (String.eqb _ _).
Qed.

Lemma skip_all_except_xcom t branch r : xcom (skip_all_except t branch r) = xcom r.
Proof.
  unfold skip_all_except. generalize (downstream t). intros l. revert r.
  induction l as [|d l IH]; intros r; simpl; [done|].
  rewrite IH. by destruct (String.eqb _ _).
Qed.

(** A step extends the log, with tries of its own task only. *)
Lemma step_trace r t :
  ∃ es, trace (step worlds r t) = (trace r ++ es)%list ∧
    ∀ t', task_eqb t t' = false → starts es t' = false.
Proof.
  assert (∃ es : list event, trace r = (trace r ++ es)%list ∧
            ∀ t', task_eqb t t' = false → starts es t' = false) as Hsame
    by (exists []; by rewrite app_nil_r).
  unfold step. destruct (state_of r t); [done|].
  destruct (mapM _ _) as [ups|]; [|done].
  destruct (evaluate_rule _ _); [|done..].
  unfold execute. destruct (operator_of t) as [f|f|] eqn:Hop.
  - pose proof (run_tries_starts t (λ n, f (worlds t n) (xcom r)) 0 retries) as Hes.
    unfold run_callable. destruct (run_tries _ _ _ _) as [es [[pushes ret]|e]]; simpl in *.
    + exists es. split; [done|]. intros t' <-. apply Hes.
      intros n. eapply callable_silent; eauto.
    + exists es. split; [done|]. intros t' <-. apply Hes.
      intros n. eapply callable_silent; eauto.
  - pose proof (run_tries_starts t (λ n, f (worlds t n) (xcom r)) 0 retries) as Hes.
    unfold run_callable. destruct (run_tries _ _ _ _) as [es [[pushes ret]|e]]; simpl in *.
    + assert (∀ t', task_eqb t t' = false → starts es t' = false) as Hstarts
        by (intros t' <-; apply Hes; intros n; eapply callable_silent; eauto).
      destruct ret; try (by exists es).
      destruct (existsb _ _); [|by exists es].
      rewrite skip_all_except_trace. by exists es.
    + exists es. split; [done|]. intros t' <-. apply Hes.
      intros n. eapply callable_silent; eauto.
  - simpl. exists [Started t 0]. split; [done|]. intros t' Ht'. simpl.
    by rewrite Ht'.
Qed.

(** Another task's tries are in the log after a step when they were
    before. *)
Lemma step_executed_other r t t' :
  task_eqb t t' = false → executed (step worlds r t) t' = executed r t'.
Proof.
  intros Hne. unfold executed.
  destruct (step_trace r t) as (es & -> & Hes).
  by rewrite starts_app, (Hes _ Hne), orb_false_r.
Qed.

Lemma step_executed_mono r t t' :
  executed r t' = true → executed (step worlds r t) t' = true.
Proof.
  unfold executed. destruct (step_trace r t) as (es & -> & _).
  rewrite starts_app. by intros ->.
Qed.

(** A step other than the branch decides its own task only. *)
Lemma step_keeps_state r t t' s :
  t ≠ task_branch → state_of r t' = Some s → state_of (step worlds r t) t' = Some s.
Proof.
  intros Hbranch Hs. unfold step. destruct (state_of r t) eqn:Ht; [done|].
  assert (task_eqb t t' = false) as Hne.
  { destruct (task_eqb t t') eqn:Heq; [|done].
    apply task_eqb_eq in Heq as ->. congruence. }
  destruct (mapM _ _) as [ups|]; [|done].
  destruct (evaluate_rule _ _); [|by rewrite state_of_set_state, Hne..].
  unfold execute. destruct (operator_of t) as [f|f|] eqn:Hop.
  - destruct (run_callable _ _ _ _) as [es [[pushes ret]|e]];
      by rewrite state_of_set_state, Hne.
  - by destruct t.
  - by rewrite state_of_set_state, Hne.
Qed.

(** A step pushes to XCom under the id of its own task only. *)
Lemma step_xcom_other r t tid k :
  task_id t ≠ tid → xcom (step worlds r t) !! (tid, k) = xcom r !! (tid, k).
Proof.
  intros Hne. unfold step. destruct (state_of r t); [done|].
  destruct (mapM _ _) as [ups|]; [|done].
  destruct (evaluate_rule _ _); [|done..].
  unfold execute. destruct (operator_of t) as [f|f|].
  - destruct (run_callable _ _ _ _) as [es [[pushes ret]|e]]; [|done].
    exact (push_all_lookup_ne t pushes ret (xcom r) tid k Hne).
  - destruct (run_callable _ _ _ _) as [es [[pushes ret]|e]]; [|done].
    destruct ret as [| | | |branch| |]; try done. destruct (existsb _ _); [|done].
    rewrite skip_all_except_xcom.
    exact (push_all_lookup_ne t pushes (VStr branch) (xcom r) tid k Hne).
  - done.
Qed.

End DagFacts.

(** ** The runs of the DAG *)

Section DagRuns.
Import Dag.

Variable worlds : task → nat → World.

(** The branch task never raises: it has one try, which names a branch. *)
Lemma check_drift_decision_tries (x : xcoms) :
  run_tries task_branch (λ n, check_drift_decision (worlds task_branch n) x) 0 retries =
  ([Started task_branch 0],
   Ok ([], VStr (if truthy (xcom_pull x "detect_drift" "drift_detected")
                 then "trigger_retrain" else "skip_retrain"))).
Proof. unfold check_drift_decision. simpl. by destruct (truthy _). Qed.

(** A step on an undecided task whose upstream tasks are decided. *)
Lemma step_ready r t ups :
  state_of r t = None → mapM (state_of r) (upstream t) = Some ups →
  step worlds r t =
  match evaluate_rule (trigger_rule_of t) ups with
  | Run => execute worlds t r
  | Skip => set_state t skipped r
  | UpstreamFailed => set_state t upstream_failed r
  end.
Proof. intros Ht Hups. unfold step. by rewrite Ht, Hups. Qed.

Lemma step_runs r t ups :
  state_of r t = None → mapM (state_of r) (upstream t) = Some ups →
  evaluate_rule (trigger_rule_of t) ups = Run →
  step worlds r t = execute worlds t r.
Proof. intros Ht Hups Hrule. by rewrite (step_ready r t ups), Hrule. Qed.

Lemma step_skips r t ups :
  state_of r t = None → mapM (state_of r) (upstream t) = Some ups →
  evaluate_rule (trigger_rule_of t) ups = Skip →
  step worlds r t = set_state t skipped r.
Proof. intros Ht Hups Hrule. by rewrite (step_ready r t ups), Hrule. Qed.

Lemma step_upstream_failed r t ups :
  state_of r t = None → mapM (state_of r) (upstream t) = Some ups →
  evaluate_rule (trigger_rule_of t) ups = UpstreamFailed →
  step worlds r t = set_state t upstream_failed r.
Proof. intros Ht Hups Hrule. by rewrite (step_ready r t ups), Hrule. Qed.

Lemma execute_python t f r :
  operator_of t = PythonOperator f →
  execute worlds t r =
  match run_tries t (λ n, f (worlds t n) (xcom r)) 0 retries with
  | (es, Ok (pushes, ret)) =>
      set_state t success
        {| states := states r; xcom := push_all t pushes ret (xcom r);
           trace := (trace r ++ es)%list |}
  | (es, Raise _) => set_state t failed (log es r)
  end.
Proof. intros Hop. unfold execute, run_callable. by rewrite Hop. Qed.

Lemma execute_branch r :
  execute worlds task_branch r =
  let verdict := truthy (xcom_pull (xcom r) "detect_drift" "drift_detected") in
  let branch := if verdict then "trigger_retrain" else "skip_retrain" in
  {| states := (if verdict then task_skip else task_retrain, skipped)
               :: (task_branch, success) :: states r;
     xcom := push_all task_branch [] (VStr branch) (xcom r);
     trace := (trace r ++ [Started task_branch 0])%list |}.
Proof.
  unfold execute, run_callable. cbn [operator_of].
  rewrite check_drift_decision_tries. by destruct (truthy _).
Qed.

(** The first three tasks: collecting failed, or detecting failed, and the
    branch task is [upstream_failed]; or both succeeded and the branch task
    skipped one of its two downstream tasks. *)
Lemma head_run r3 :
  r3 = fold_left (step worlds) head_tasks initial →
  (∃ x tr,
     r3 = {| states := [(task_branch, upstream_failed); (task_drift, upstream_failed);
                        (task_collect, failed)];
             xcom := x; trace := tr |}) ∨
  (∃ es1 p1 ret1 es2 e2 x tr,
     run_tries task_collect
       (λ n, collect_recent_data (worlds task_collect n) ∅) 0 retries =
       (es1, Ok (p1, ret1)) ∧
     run_tries task_drift
       (λ n, detect_drift (worlds task_drift n) (push_all task_collect p1 ret1 ∅))
       0 retries = (es2, Raise e2) ∧
     r3 = {| states := [(task_branch, upstream_failed); (task_drift, failed);
                        (task_collect, success)];
             xcom := x; trace := tr |}) ∨
  ∃ es1 p1 ret1 es2 p2 ret2,
    run_tries task_collect
      (λ n, collect_recent_data (worlds task_collect n) ∅) 0 retries =
      (es1, Ok (p1, ret1)) ∧
    let x1 := push_all task_collect p1 ret1 ∅ in
    run_tries task_drift (λ n, detect_drift (worlds task_drift n) x1) 0 retries =
      (es2, Ok (p2, ret2)) ∧
    let x2 := push_all task_drift p2 ret2 x1 in
    let verdict := truthy (xcom_pull x2 "detect_drift" "drift_detected") in
    r3 = {| states := [(if verdict then task_skip else task_retrain, skipped);
                       (task_branch, success); (task_drift, success);
                       (task_collect, success)];
            xcom := push_all task_branch []
                      (VStr (if verdict then "trigger_retrain" else "skip_retrain")) x2;
            trace := ((([] ++ es1) ++ es2) ++ [Started task_branch 0])%list |}.
Proof.
  intros ->. cbv zeta. unfold head_tasks. cbn [fold_left].
  rewrite (step_runs initial task_collect []) by reflexivity.
  rewrite (execute_python task_collect collect_recent_data) by reflexivity.
  cbn [xcom states trace initial].
  destruct (run_tries task_collect _ 0 retries) as [es1 [[p1 ret1]|e1]] eqn:H1.
  - rewrite (step_runs _ task_drift [success]) by reflexivity.
    rewrite (execute_python task_drift detect_drift) by reflexivity.
    cbn [xcom states trace set_state].
    destruct (run_tries task_drift _ 0 retries) as [es2 [[p2 ret2]|e2]] eqn:H2.
    + rewrite (step_runs _ task_branch [success]) by reflexivity.
      rewrite execute_branch. right. right. exists es1, p1, ret1, es2, p2, ret2.
      split; [done|]. split; [exact H2|]. reflexivity.
    + rewrite (step_upstream_failed _ task_branch [failed]) by reflexivity.
      right. left. exists es1, p1, ret1, es2, e2. eexists _, _.
      split; [done|]. split; [exact H2|]. reflexivity.
  - rewrite (step_upstream_failed _ task_drift [failed]) by reflexivity.
    rewrite (step_upstream_failed _ task_branch [upstream_failed]) by reflexivity.
    left. by eexists _, _.
Qed.

(** *** The rest of the run *)

(** After a failure upstream nothing is run. *)
Lemma tail_run_failed s1 s2 x tr :
  fold_left (step worlds) tail_tasks
    {| states := [(task_branch, upstream_failed); (task_drift, s2); (task_collect, s1)];
       xcom := x; trace := tr |} =
  {| states := [(task_end, upstream_failed); (task_skip, upstream_failed);
                (task_alert, upstream_failed); (task_deploy, upstream_failed);
                (task_evaluate, upstream_failed); (task_retrain, upstream_failed);
                (task_branch, upstream_failed); (task_drift, s2); (task_collect, s1)];
     xcom := x; trace := tr |}.
Proof. reflexivity. Qed.

(** On the skip branch the retraining tasks are skipped one after the other,
    and [skip_retrain] and [end] run. *)
Lemma tail_run_skip l x tr :
  l = [(task_branch, success); (task_drift, success); (task_collect, success)] →
  fold_left (step worlds) tail_tasks
    {| states := (task_retrain, skipped) :: l; xcom := x; trace := tr |} =
  {| states := (task_end, success) :: (task_skip, success) :: (task_alert, skipped)
               :: (task_deploy, skipped) :: (task_evaluate, skipped)
               :: (task_retrain, skipped) :: l;
     xcom := x;
     trace := ((tr ++ [Started task_skip 0]) ++ [Started task_end 0])%list |}.
Proof. intros ->. reflexivity. Qed.

(** [trigger_retrain] catches what [trigger_dag] raises: its first try
    returns. *)
Lemma trigger_retrain_tries (x : xcoms) :
  ∃ es, run_tries task_retrain (λ n, trigger_retrain (worlds task_retrain n) x)
          0 retries = (es, Ok ([], VNone)).
Proof.
  unfold trigger_retrain. simpl.
  destruct (trigger_dag (worlds task_retrain 0)); simpl; eexists; reflexivity.
Qed.

(** On the retraining branch [skip_retrain] stays skipped and is never run,
    [trigger_retrain] runs and succeeds, and the verdict and the decision
    stay in XCom. *)
Lemma tail_run_retrain r3 x3 tr3 :
  r3 = {| states := [(task_skip, skipped); (task_branch, success);
                     (task_drift, success); (task_collect, success)];
          xcom := x3; trace := tr3 |} →
  let r := fold_left (step worlds) tail_tasks r3 in
  state_of r task_branch = Some success ∧
  state_of r task_drift = Some success ∧
  state_of r task_collect = Some success ∧
  state_of r task_skip = Some skipped ∧
  executed r task_skip = starts tr3 task_skip ∧
  state_of r task_retrain = Some success ∧
  executed r task_retrain = true ∧
  (∀ k, xcom r !! ("detect_drift", k) = x3 !! ("detect_drift", k)) ∧
  (∀ k, xcom r !! ("check_drift_decision", k) = x3 !! ("check_drift_decision", k)).
Proof.
  intros Hr3. cbv zeta. unfold tail_tasks. cbn [fold_left].
  set (r4 := step worlds r3 task_retrain).
  assert (state_of r4 task_retrain = Some success ∧ executed r4 task_retrain = true)
    as [Hretrain Hexecuted].
  { subst r4 r3. rewrite (step_runs _ task_retrain [success]) by reflexivity.
    rewrite (execute_python task_retrain trigger_retrain) by reflexivity.
    pose proof (run_tries_starts task_retrain
      (λ n, trigger_retrain (worlds task_retrain n) x3) 0 retries task_retrain) as Hes.
    destruct (trigger_retrain_tries x3) as [es Htries]. cbn [xcom].
    rewrite Htries in Hes |- *. split; [reflexivity|].
    unfold executed. cbn [trace set_state]. rewrite starts_app.
    simpl in Hes. rewrite Hes; [apply orb_true_r|].
    intros n. apply (callable_silent task_retrain). by left. }
  assert (∀ t s, state_of r3 t = Some s → state_of r4 t = Some s) as Hkeep
    by (intros; by apply step_keeps_state).
  repeat split.
  - do 5 (apply step_keeps_state; [done|]). apply Hkeep. by subst r3.
  - do 5 (apply step_keeps_state; [done|]). apply Hkeep. by subst r3.
  - do 5 (apply step_keeps_state; [done|]). apply Hkeep. by subst r3.
  - do 5 (apply step_keeps_state; [done|]). apply Hkeep. by subst r3.
  - rewrite step_executed_other by done.
    rewrite (step_decided worlds _ task_skip skipped)
      by (do 3 (apply step_keeps_state; [done|]); apply Hkeep; by subst r3).
    do 3 (rewrite step_executed_other by done). subst r4.
    rewrite step_executed_other by done. by subst r3.
  - by do 5 (apply step_keeps_state; [done|]).
  - by do 5 apply step_executed_mono.
  - intros k. do 5 (rewrite step_xcom_other by done). subst r4.
    rewrite step_xcom_other by done. by subst r3.
  - intros k. do 5 (rewrite step_xcom_other by done). subst r4.
    rewrite step_xcom_other by done. by subst r3.
Qed.

(** *** Every run *)

Lemma run_split :
  run worlds = fold_left (step worlds) tail_tasks (fold_left (step worlds) head_tasks initial).
Proof. unfold run, tasks, tail_tasks, head_tasks. cbn [fold_left]. reflexivity. Qed.

(** The tries of the first two tasks log those tasks only. *)
Lemma head_tries_starts es1 out1 x1 es2 out2 t :
  run_tries task_collect (λ n, collect_recent_data (worlds task_collect n) ∅) 0 retries =
    (es1, out1) →
  run_tries task_drift (λ n, detect_drift (worlds task_drift n) x1) 0 retries =
    (es2, out2) →
  starts ((([] ++ es1) ++ es2) ++ [Started task_branch 0])%list t =
  task_eqb task_collect t || task_eqb task_drift t || task_eqb task_branch t.
Proof.
  intros H1 H2.
  pose proof (run_tries_starts task_collect
    (λ n, collect_recent_data (worlds task_collect n) ∅) 0 retries t) as Hes1.
  pose proof (run_tries_starts task_drift
    (λ n, detect_drift (worlds task_drift n) x1) 0 retries t) as Hes2.
  rewrite H1 in Hes1. rewrite H2 in Hes2. simpl in Hes1, Hes2.
  rewrite !starts_app, Hes1, Hes2; simpl.
  - by rewrite orb_false_r.
  - intros n. apply (callable_silent task_drift). by left.
  - intros n. apply (callable_silent task_collect). by left.
Qed.

(** The four shapes of a run: collecting failed; detecting failed; the skip
    branch; the retraining branch. *)
Lemma run_cases :
  let r := run worlds in
  (state_of r task_collect = Some failed ∧
   state_of r task_branch = Some upstream_failed ∧
   state_of r task_skip = Some upstream_failed) ∨
  (∃ es1 p1 ret1 es2 e2,
     run_tries task_collect
       (λ n, collect_recent_data (worlds task_collect n) ∅) 0 retries =
       (es1, Ok (p1, ret1)) ∧
     run_tries task_drift
       (λ n, detect_drift (worlds task_drift n) (push_all task_collect p1 ret1 ∅))
       0 retries = (es2, Raise e2) ∧
     state_of r task_branch = Some upstream_failed ∧
     state_of r task_skip = Some upstream_failed) ∨
  ∃ es1 p1 ret1 es2 p2 ret2,
    run_tries task_collect
      (λ n, collect_recent_data (worlds task_collect n) ∅) 0 retries =
      (es1, Ok (p1, ret1)) ∧
    let x1 := push_all task_collect p1 ret1 ∅ in
    run_tries task_drift (λ n, detect_drift (worlds task_drift n) x1) 0 retries =
      (es2, Ok (p2, ret2)) ∧
    let x2 := push_all task_drift p2 ret2 x1 in
    (truthy (xcom_pull x2 "detect_drift" "drift_detected") = false ∧
     r = {| states := [(task_end, success); (task_skip, success); (task_alert, skipped);
                       (task_deploy, skipped); (task_evaluate, skipped);
                       (task_retrain, skipped); (task_branch, success);
                       (task_drift, success); (task_collect, success)];
            xcom := push_all task_branch [] (VStr "skip_retrain") x2;
            trace := ((((([] ++ es1) ++ es2) ++ [Started task_branch 0])
                       ++ [Started task_skip 0]) ++ [Started task_end 0])%list |}) ∨
    (truthy (xcom_pull x2 "detect_drift" "drift_detected") = true ∧
     state_of r task_branch = Some success ∧
     state_of r task_drift = Some success ∧
     state_of r task_collect = Some success ∧
     state_of r task_skip = Some skipped ∧
     executed r task_skip = false ∧
     state_of r task_retrain = Some success ∧
     executed r task_retrain = true ∧
     (∀ k, xcom r !! ("detect_drift", k) = x2 !! ("detect_drift", k)) ∧
     xcom r !! ("check_drift_decision", "return_value") = Some (VStr "trigger_retrain")).
Proof.
  cbv zeta. rewrite run_split.
  destruct (head_run _ eq_refl)
    as [(x & tr & ->)|[(es1 & p1 & ret1 & es2 & e2 & x & tr & H1 & H2 & ->)|
        (es1 & p1 & ret1 & es2 & p2 & ret2 & H1 & H2 & ->)]].
  - left. by rewrite tail_run_failed.
  - right. left. exists es1, p1, ret1, es2, e2. by rewrite tail_run_failed.
  - right. right. exists es1, p1, ret1, es2, p2, ret2.
    split; [done|]. split; [done|]. cbv zeta in *.
    destruct (truthy (xcom_pull _ _ _)) eqn:Hverdict.
    + right. split; [done|].
      edestruct tail_run_retrain as (? & ? & ? & ? & Hskip & ? & ? & Hdrift & Hdecision);
        [reflexivity|].
      do 4 (split; [done|]).
      split; [rewrite Hskip; by rewrite (head_tries_starts _ _ _ _ _ _ H1 H2)|].
      do 2 (split; [done|]).
      split.
      * intros k. rewrite Hdrift. by apply push_all_lookup_ne.
      * rewrite Hdecision. by apply (push_all_return task_branch).
    + left. split; [done|]. by rewrite tail_run_skip.
Qed.

(** *** The callables of the first tasks *)

(** Without a reference table [detect_drift] returns [False] at once. *)
Lemma detect_drift_no_reference (w : World) (x : xcoms) :
  reference_exists w = false → detect_drift w x = ([], Ok ([], VBool false)).
Proof. intros Href. unfold detect_drift. by rewrite Href. Qed.

Lemma run_tries_first {A} t (f : nat → traced A) es a retries_left :
  f 0%nat = (es, Ok a) → run_tries t f 0 retries_left = (Started t 0 :: es, Ok a).
Proof. intros Hf. destruct retries_left; simpl; by rewrite Hf. Qed.

Lemma collect_recent_data_calls (w : World) (x : xcoms) (name : string) :
  calls (collect_recent_data w x).1 name = false.
Proof. unfold collect_recent_data. by destruct (collect w). Qed.

End DagRuns.

(** *** The skip branch *)

(** What a run that took the skip branch looks like. *)
Lemma skip_run_facts (worlds : Dag.task → nat → Dag.World) es1 out1 x1 es2 out2 x r :
  Dag.run_tries Dag.task_collect
    (λ n, Dag.collect_recent_data (worlds Dag.task_collect n) ∅) 0 Dag.retries =
    (es1, out1) →
  Dag.run_tries Dag.task_drift
    (λ n, Dag.detect_drift (worlds Dag.task_drift n) x1) 0 Dag.retries = (es2, out2) →
  r = {| Dag.states :=
           [(Dag.task_end, Dag.success); (Dag.task_skip, Dag.success);
            (Dag.task_alert, Dag.skipped); (Dag.task_deploy, Dag.skipped);
            (Dag.task_evaluate, Dag.skipped); (Dag.task_retrain, Dag.skipped);
            (Dag.task_branch, Dag.success); (Dag.task_drift, Dag.success);
            (Dag.task_collect, Dag.success)];
         Dag.xcom := x;
         Dag.trace := ((((([] ++ es1) ++ es2) ++ [Dag.Started Dag.task_branch 0])
                         ++ [Dag.Started Dag.task_skip 0])
                         ++ [Dag.Started Dag.task_end 0])%list |} →
  (∀ t, t ∈ Dag.retrain_branch →
     Dag.state_of r t = Some Dag.skipped ∧ Dag.executed r t = false) ∧
  Dag.state_of r Dag.task_skip = Some Dag.success ∧
  Dag.executed r Dag.task_skip = true ∧
  Dag.state_of r Dag.task_end = Some Dag.success ∧
  Dag.executed r Dag.task_end = true ∧
  Dag.run_succeeded r = true.
Proof.
  intros H1 H2 ->.
  assert (∀ t, Dag.executed
            {| Dag.states := [(Dag.task_end, Dag.success); (Dag.task_skip, Dag.success);
                 (Dag.task_alert, Dag.skipped); (Dag.task_deploy, Dag.skipped);
                 (Dag.task_evaluate, Dag.skipped); (Dag.task_retrain, Dag.skipped);
                 (Dag.task_branch, Dag.success); (Dag.task_drift, Dag.success);
                 (Dag.task_collect, Dag.success)];
               Dag.xcom := x;
               Dag.trace := ((((([] ++ es1) ++ es2) ++ [Dag.Started Dag.task_branch 0])
                         ++ [Dag.Started Dag.task_skip 0])
                         ++ [Dag.Started Dag.task_end 0])%list |} t =
          Dag.task_eqb Dag.task_collect t || Dag.task_eqb Dag.task_drift t
          || Dag.task_eqb Dag.task_branch t || Dag.task_eqb Dag.task_skip t
          || Dag.task_eqb Dag.task_end t) as Hexecuted.
  { intros t. unfold Dag.executed. cbn [Dag.trace].
    rewrite 2!starts_app, (head_tries_starts worlds _ _ _ _ _ _ H1 H2). simpl.
    by rewrite !orb_false_r. }
  split; [|by rewrite !Hexecuted].
  intros t Ht. rewrite Hexecuted. unfold Dag.retrain_branch in Ht.
  repeat (apply elem_of_cons in Ht as [->|Ht]; [done|]).
  by apply elem_of_nil in Ht.
Qed.

(** C7 (as amended): in a run whose collecting task succeeded and in which
    [detect_drift] finds no reference table, [detect_data_drift] is not
    called; [detect_drift] succeeds, returning [False] without pushing a
    verdict; the branch task reads the absent verdict as no drift and names
    [skip_retrain]; the four retraining tasks are skipped and not executed,
    [skip_retrain] and [end] run, and the run succeeds.  The run takes the
    same skip branch as a run with a no-drift verdict, and no status of its
    own is recorded for it. *)
Theorem C7_missing_reference_takes_the_skip_branch (worlds : Dag.task → nat → Dag.World) :
  Dag.state_of (Dag.run worlds) Dag.task_collect = Some Dag.success →
  Dag.reference_exists (worlds Dag.task_drift 0%nat) = false →
  let r := Dag.run worlds in
  Dag.called r "detect_data_drift" = false ∧
  Dag.state_of r Dag.task_drift = Some Dag.success ∧
  Dag.xcom r !! ("detect_drift", "return_value") = Some (VBool false) ∧
  Dag.xcom r !! ("detect_drift", "drift_detected") = None ∧
  Dag.xcom r !! ("check_drift_decision", "return_value") = Some (VStr "skip_retrain") ∧
  (∀ t, t ∈ Dag.retrain_branch →
     Dag.state_of r t = Some Dag.skipped ∧ Dag.executed r t = false) ∧
  Dag.state_of r Dag.task_skip = Some Dag.success ∧
  Dag.executed r Dag.task_skip = true ∧
  Dag.state_of r Dag.task_end = Some Dag.success ∧
  Dag.run_succeeded r = true.
Proof.
  intros Hcollect Href. cbv zeta.
  assert (∀ x, Dag.run_tries Dag.task_drift
            (λ n, Dag.detect_drift (worlds Dag.task_drift n) x) 0 Dag.retries =
            ([Dag.Started Dag.task_drift 0], Ok ([], VBool false))) as Hdrift
    by (intros x; apply run_tries_first; by apply detect_drift_no_reference).
  destruct (run_cases worlds)
    as [(Hfailed & _)|[(es1 & p1 & ret1 & es2 & e2 & _ & H2 & _)|
        (es1 & p1 & ret1 & es2 & p2 & ret2 & H1 & H2 & Hbranch)]].
  - congruence.
  - rewrite Hdrift in H2. discriminate H2.
  - cbv zeta in H2, Hbranch. rewrite Hdrift in H2. injection H2 as <- <- <-.
    assert (Dag.push_all Dag.task_drift [] (VBool false)
              (Dag.push_all Dag.task_collect p1 ret1 ∅)
            !! ("detect_drift", "drift_detected") = None) as Hnone.
    { rewrite (push_all_nil_lookup Dag.task_drift) by done.
      by rewrite push_all_lookup_ne. }
    assert (Dag.push_all Dag.task_drift [] (VBool false)
              (Dag.push_all Dag.task_collect p1 ret1 ∅)
            !! ("detect_drift", "return_value") = Some (VBool false)) as Hret
      by (by apply (push_all_return Dag.task_drift)).
    destruct Hbranch as [[Hverdict ->]|[Hverdict _]].
    2:{ unfold Dag.xcom_pull in Hverdict. by rewrite Hnone in Hverdict. }
    destruct (skip_run_facts worlds _ _ _ _ _
                (Dag.push_all Dag.task_branch [] (VStr "skip_retrain")
                   (Dag.push_all Dag.task_drift [] (VBool false)
                      (Dag.push_all Dag.task_collect p1 ret1 ∅)))
                _ H1 (Hdrift (Dag.push_all Dag.task_collect p1 ret1 ∅)) eq_refl)
      as (Hretrain & Hskip & Hskipped & Hend & _ & Hsucceeded).
    split.
    { unfold Dag.called. cbn [Dag.trace]. rewrite !calls_app.
      pose proof (run_tries_calls Dag.task_collect
        (λ n, Dag.collect_recent_data (worlds Dag.task_collect n) ∅) 0 Dag.retries
        "detect_data_drift") as Hcalls.
      rewrite H1 in Hcalls. simpl in Hcalls. rewrite Hcalls; [done|].
      intros n. apply collect_recent_data_calls. }
    split; [done|]. cbn [Dag.xcom].
    split; [by rewrite push_all_lookup_ne|].
    split; [by rewrite push_all_lookup_ne|].
    split; [by apply (push_all_return Dag.task_branch)|].
    done.
Qed.

(** No reference table on disk: the recent data are collected and the run
    ends on the skip branch. *)
Lemma C7_witness :
  let r := Dag.run Examples.worlds_no_reference in
  Dag.called r "detect_data_drift" = false ∧
  Dag.state_of r Dag.task_skip = Some Dag.success ∧
  Dag.state_of r Dag.task_end = Some Dag.success.
Proof.
  cbv zeta.
  destruct (C7_missing_reference_takes_the_skip_branch Examples.worlds_no_reference)
    as (Hcalled & _ & _ & _ & _ & _ & Hskip & _ & Hend & _).
  - vm_compute. reflexivity.
  - reflexivity.
  - repeat split; assumption.
Defined.

(** C7 fails as stated: the run without a reference table is not set apart
    from a run with a no-drift verdict.  It executes [skip_retrain], the
    branch task names the same branch, and every task ends in the same
    state in the two runs; the only difference is that the engine was
    called in the second one. *)
Lemma C7_counterexample :
  let missing := Dag.run Examples.worlds_no_reference in
  let no_drift := Dag.run Examples.worlds_no_drift in
  Dag.executed missing Dag.task_skip = true ∧
  Dag.xcom missing !! ("check_drift_decision", "return_value") =
    Dag.xcom no_drift !! ("check_drift_decision", "return_value") ∧
  Dag.xcom no_drift !! ("detect_drift", "drift_detected") = Some (VBool false) ∧
  map (Dag.state_of missing) Dag.tasks = map (Dag.state_of no_drift) Dag.tasks ∧
  Dag.called missing "detect_data_drift" = false ∧
  Dag.called no_drift "detect_data_drift" = true.
Proof. vm_compute. repeat split. Qed.

(** *** The branch *)

(** C8: in every run in which the branch task ran, the callable names one of
    the two branches from the verdict [detect_drift] pushed and from nothing
    else: ['trigger_retrain'] when the verdict is true and ['skip_retrain']
    when it is false (or absent).  On the retraining branch
    [trigger_retrain] is executed and [skip_retrain] is skipped without
    being executed; on the skip branch [skip_retrain] is executed and the
    four retraining tasks (trigger, evaluate, deploy, alert) are skipped
    without being executed. *)
Theorem C8_one_branch_chosen_by_the_verdict (worlds : Dag.task → nat → Dag.World) :
  Dag.state_of (Dag.run worlds) Dag.task_branch = Some Dag.success →
  let r := Dag.run worlds in
  let verdict := truthy (Dag.xcom_pull (Dag.xcom r) "detect_drift" "drift_detected") in
  (∀ w x, Dag.check_drift_decision w x =
     ([], Ok ([], VStr (if truthy (Dag.xcom_pull x "detect_drift" "drift_detected")
                       then "trigger_retrain" else "skip_retrain")))) ∧
  (∀ b, Dag.xcom r !! ("detect_drift", "drift_detected") = Some (VBool b) → verdict = b) ∧
  Dag.xcom r !! ("check_drift_decision", "return_value") =
    Some (VStr (if verdict then "trigger_retrain" else "skip_retrain")) ∧
  if verdict then
    Dag.executed r Dag.task_retrain = true ∧
    Dag.state_of r Dag.task_skip = Some Dag.skipped ∧
    Dag.executed r Dag.task_skip = false
  else
    Dag.executed r Dag.task_skip = true ∧
    Dag.state_of r Dag.task_skip = Some Dag.success ∧
    ∀ t, t ∈ Dag.retrain_branch →
      Dag.state_of r t = Some Dag.skipped ∧ Dag.executed r t = false.
Proof.
  intros Hbranch. cbv zeta.
  split; [intros w x; unfold Dag.check_drift_decision; by destruct (truthy _)|].
  split; [intros b Hb; unfold Dag.xcom_pull; by rewrite Hb|].
  destruct (run_cases worlds)
    as [(_ & Hfailed & _)|[(es1 & p1 & ret1 & es2 & e2 & _ & _ & Hfailed & _)|
        (es1 & p1 & ret1 & es2 & p2 & ret2 & H1 & H2 & Hcases)]];
    [congruence..|].
  cbv zeta in H2, Hcases.
  destruct Hcases as [[Hverdict Hrun]|
    (Hverdict & _ & _ & _ & Hskip & Hnot & _ & Hretrain & Hdrift & Hdecision)].
  - destruct (skip_run_facts worlds _ _ _ _ _ _ _ H1 H2 Hrun)
      as (Hskipped & Hstate & Hexecuted & _).
    assert (truthy (Dag.xcom_pull (Dag.xcom (Dag.run worlds)) "detect_drift"
                      "drift_detected") = false) as ->.
    { rewrite Hrun. unfold Dag.xcom_pull in *. cbn [Dag.xcom].
      by rewrite push_all_lookup_ne. }
    split; [|done]. rewrite Hrun. by apply (push_all_return Dag.task_branch).
  - assert (truthy (Dag.xcom_pull (Dag.xcom (Dag.run worlds)) "detect_drift"
                      "drift_detected") = true) as ->.
    { unfold Dag.xcom_pull in *. by rewrite Hdrift. }
    done.
Qed.

(** A run with drift and a run without. *)
Lemma C8_witness :
  Dag.executed (Dag.run Examples.worlds_drift) Dag.task_retrain = true ∧
  Dag.state_of (Dag.run Examples.worlds_drift) Dag.task_skip = Some Dag.skipped ∧
  Dag.executed (Dag.run Examples.worlds_drift) Dag.task_skip = false.
Proof.
  assert (Dag.state_of (Dag.run Examples.worlds_drift) Dag.task_branch =
            Some Dag.success) as Hbranch by (vm_compute; reflexivity).
  pose proof (C8_one_branch_chosen_by_the_verdict Examples.worlds_drift Hbranch)
    as (_ & Hverdict & _ & Hsides).
  cbv zeta in Hverdict, Hsides.
  rewrite (Hverdict true) in Hsides by (vm_compute; reflexivity).
  exact Hsides.
Defined.

(** *** The join *)

(** C9: in every run in which [skip_retrain] ran, the retraining branch was
    not entered (its four tasks are skipped and not executed), the upstream
    tasks of [end] are in the states skipped and success, for which the
    rule [none_failed_min_one_success] says run, and [end] runs and
    succeeds, so that the run succeeds.  The rule lets the join run whenever
    no upstream task failed and at least one succeeded: a skipped one does
    not count as failed. *)
Theorem C9_skip_branch_reaches_end (worlds : Dag.task → nat → Dag.World) :
  Dag.state_of (Dag.run worlds) Dag.task_skip = Some Dag.success →
  let r := Dag.run worlds in
  (∀ t, t ∈ Dag.retrain_branch →
     Dag.state_of r t = Some Dag.skipped ∧ Dag.executed r t = false) ∧
  mapM (Dag.state_of r) (Dag.upstream Dag.task_end) =
    Some [Dag.skipped; Dag.success] ∧
  Dag.evaluate_rule (Dag.trigger_rule_of Dag.task_end) [Dag.skipped; Dag.success] =
    Dag.Run ∧
  Dag.state_of r Dag.task_end = Some Dag.success ∧
  Dag.executed r Dag.task_end = true ∧
  Dag.run_succeeded r = true ∧
  (∀ ups, existsb Dag.is_failed ups = false → existsb Dag.is_success ups = true →
     Dag.evaluate_rule Dag.none_failed_min_one_success ups = Dag.Run).
Proof.
  intros Hskip. cbv zeta.
  destruct (run_cases worlds)
    as [(_ & _ & Hfailed)|[(es1 & p1 & ret1 & es2 & e2 & _ & _ & _ & Hfailed)|
        (es1 & p1 & ret1 & es2 & p2 & ret2 & H1 & H2 & Hcases)]];
    [congruence..|].
  cbv zeta in H2, Hcases.
  destruct Hcases as [[Hverdict Hrun]|(_ & _ & _ & _ & Hskipped & _)]; [|congruence].
  destruct (skip_run_facts worlds _ _ _ _ _ _ _ H1 H2 Hrun)
    as (Hretrain & _ & _ & Hend & Hexecuted & Hsucceeded).
  split; [done|]. split; [by rewrite Hrun|]. split; [done|].
  do 3 (split; [done|]).
  intros ups Hfailed Hsuccess. unfold Dag.evaluate_rule. by rewrite Hfailed, Hsuccess.
Qed.

(** The run without drift ends on the skip branch, and [end] succeeds. *)
Lemma C9_witness :
  Dag.state_of (Dag.run Examples.worlds_no_drift) Dag.task_skip = Some Dag.success ∧
  Dag.state_of (Dag.run Examples.worlds_no_drift) Dag.task_end = Some Dag.success ∧
  Dag.run_succeeded (Dag.run Examples.worlds_no_drift) = true.
Proof.
  assert (Dag.state_of (Dag.run Examples.worlds_no_drift) Dag.task_skip =
            Some Dag.success) as Hskip by (vm_compute; reflexivity).
  pose proof (C9_skip_branch_reaches_end Examples.worlds_no_drift Hskip)
    as (_ & _ & _ & Hend & _ & Hsucceeded & _).
  repeat split; assumption.
Defined.
